(** * TaskIQ auth server: a shallow embedding of [src/app.py]

    The development follows the layout of the source file: string and
    path helpers used by the handlers, the JSON codec the credential
    store goes through, the file system the store lives in, the external
    collaborators (OAuth provider, identity endpoint, clock), and finally
    the helper functions and route handlers themselves.

    Modelling conventions.
    - A Python [str] is a [string]: a sequence of characters with code
      points 0..255.
    - The file system is a finite map from path strings, exactly as the
      program spells them, to nodes (regular file with its text, or
      directory).  Paths are not normalised: two spellings of one file
      are two keys.  Statements that relate the files of different
      identifiers are therefore made for identifiers without a slash,
      whose file names are plain names in the storage directory,
      compared as on a case-sensitive file system.  A file's text is
      what a reader in text mode gets.  The storage directory is
      created when the module is imported, so it is part of the world a
      request starts in.
    - Exceptions are values of type [exn]; a computation that may raise
      returns [exn + A].
    - The clock, the provider's answers and the generated [state] value
      are inputs ([environment], [world]); outbound calls are recorded
      in the world so that "no call was made" is a statement about that
      record.
    - A handler is modelled up to the value it returns.  Routing and
      CORS are not modelled; of the framework's rendering of a returned
      value only [get_token_status] is: whether rendering the dict that
      [get_token] returns raises on a float that is not finite. *)

From Stdlib Require Import ZArith Ascii String List Lia.
From stdpp Require Import gmap strings.

Local Open Scope Z_scope.
Set Warnings "-register-all".

(* ===================================================================== *)
(** * Python strings *)
(* ===================================================================== *)

Module PyStr.

(** The double quote and backslash characters, by code point. *)
Definition dquote : ascii := "034"%char.
Definition backslash : ascii := "092"%char.

Definition ord (c : ascii) : Z := Z.of_N (N_of_ascii c).
Definition chr (n : Z) : ascii := ascii_of_N (Z.to_N n).

Definition str1 (c : ascii) : string := String c EmptyString.

(** [c in s] for a one-character [c]. *)
Fixpoint contains_char (c : ascii) (s : string) : bool :=
  match s with
  | EmptyString => false
  | String d s' => if Ascii.eqb c d then true else contains_char c s'
  end.

(** [s.startswith(p)] *)
Fixpoint startswith (s p : string) : bool :=
  match p with
  | EmptyString => true
  | String c p' =>
      match s with
      | EmptyString => false
      | String d s' => if Ascii.eqb c d then startswith s' p' else false
      end
  end.

(** [s.endswith(p)] for a one-character [p]. *)
Fixpoint endswith_char (s : string) (c : ascii) : bool :=
  match s with
  | EmptyString => false
  | String d EmptyString => Ascii.eqb c d
  | String _ s' => endswith_char s' c
  end.

(** [sep.join(parts)] *)
Fixpoint join (sep : string) (parts : list string) : string :=
  match parts with
  | [] => EmptyString
  | [p] => p
  | p :: rest => p +:+ sep +:+ join sep rest
  end.

(** [s.replace(old, new)] for a non-empty [old]: scan left to right;
    at a position where [old] starts, emit [new] and skip the rest of
    the occurrence ([skip] counts the characters still to drop), so
    occurrences never overlap. *)
Fixpoint replace_scan (old new : string) (skip : nat) (s : string) : string :=
  match s with
  | EmptyString => EmptyString
  | String c s' =>
      match skip with
      | S k => replace_scan old new k s'
      | O =>
          if startswith s old
          then new +:+ replace_scan old new (Nat.pred (String.length old)) s'
          else String c (replace_scan old new O s')
      end
  end.

(** With an empty [old], Python inserts [new] before every character
    and at the end. *)
Fixpoint replace_empty (new s : string) : string :=
  match s with
  | EmptyString => new
  | String c s' => new +:+ String c (replace_empty new s')
  end.

(** [s.replace(old, new)] *)
Definition replace (s old new : string) : string :=
  match old with
  | EmptyString => replace_empty new s
  | String _ _ => replace_scan old new O s
  end.

(** [s.lower()] on the ASCII letters. *)
Definition lower_char (c : ascii) : ascii :=
  let n := ord c in
  if (65 <=? n) && (n <=? 90) then chr (n + 32) else c.

Fixpoint lower (s : string) : string :=
  match s with
  | EmptyString => EmptyString
  | String c s' => String (lower_char c) (lower s')
  end.

(** Decimal digits of a non-negative integer, most significant first.
    [fuel] bounds the number of digits. *)
Definition digit_char (d : Z) : ascii := chr (48 + d).

Fixpoint decimal_digits (fuel : nat) (n : Z) (acc : string) : string :=
  match fuel with
  | O => acc
  | S f =>
      let acc' := String (digit_char (n mod 10)) acc in
      if n <? 10 then acc' else decimal_digits f (n / 10) acc'
  end.

(** [str(n)] for an integer. *)
Definition str_int (n : Z) : string :=
  if n <? 0
  then String "-" (decimal_digits (S (Z.to_nat (Z.log2 (- n)))) (- n) EmptyString)
  else decimal_digits (S (Z.to_nat (Z.log2 n))) n EmptyString.

(** ["%0<w>d" % n] for a non-negative [n]: at least [w] digits,
    zero-padded on the left. *)
Fixpoint zeros (k : nat) (s : string) : string :=
  match k with
  | O => s
  | S k' => String "0" (zeros k' s)
  end.

Definition zfill (w : nat) (s : string) : string :=
  zeros (w - String.length s)%nat s.

Definition format_0d (w : nat) (n : Z) : string := zfill w (str_int n).

End PyStr.

(* ===================================================================== *)
(** * [os.path] (POSIX flavour) *)
(* ===================================================================== *)

Module os_path.
Import PyStr.

(** [os.path.join(a, b)]: an absolute [b] discards [a]; otherwise the
    two are glued with exactly one separator, unless [a] is empty or
    already ends with one. *)
Definition join (a b : string) : string :=
  if startswith b "/" then b
  else if orb (String.eqb a EmptyString) (endswith_char a "/") then a +:+ b
  else a +:+ "/" +:+ b.

(** Position just after the last ['/'] of [p], as the part of [p] up
    to and including that separator ([None] when there is none). *)
Fixpoint head_upto_last_sep (p : string) : option string :=
  match p with
  | EmptyString => None
  | String c p' =>
      match head_upto_last_sep p' with
      | Some h => Some (String c h)
      | None => if Ascii.eqb c "/" then Some (str1 c) else None
      end
  end.

Fixpoint all_sep (s : string) : bool :=
  match s with
  | EmptyString => true
  | String c s' => Ascii.eqb c "/" && all_sep s'
  end.

(** [s.rstrip('/')] *)
Fixpoint rstrip_sep (s : string) : string :=
  match s with
  | EmptyString => EmptyString
  | String c s' =>
      match rstrip_sep s' with
      | EmptyString => if Ascii.eqb c "/" then EmptyString else str1 c
      | r => String c r
      end
  end.

(** [os.path.dirname(p)] *)
Definition dirname (p : string) : string :=
  match head_upto_last_sep p with
  | None => EmptyString
  | Some head => if all_sep head then head else rstrip_sep head
  end.

End os_path.

(* ===================================================================== *)
(** * Exceptions *)
(* ===================================================================== *)

(** The handlers distinguish no exception classes: every [except] clause
    of the source is [except Exception as e] and only uses [str(e)].
    [HTTPException] is kept apart because the source raises it itself. *)
Inductive exn : Type :=
| HTTPException (status_code : Z) (detail : string)
| Raised (type_name : string) (message : string).

(** [str(e)]; for [HTTPException] the framework renders
    [f"{status_code}: {detail}"]. *)
Definition str_exn (e : exn) : string :=
  match e with
  | HTTPException code detail => PyStr.str_int code +:+ ": " +:+ detail
  | Raised _ message => message
  end.

(* ===================================================================== *)
(** * [datetime] *)
(* ===================================================================== *)

Module datetime.
Import PyStr.

Record t : Type := mk {
  year : Z; month : Z; day : Z;
  hour : Z; minute : Z; second : Z; microsecond : Z
}.

Definition is_leap (y : Z) : bool :=
  ((y mod 4 =? 0) && negb (y mod 100 =? 0)) || (y mod 400 =? 0).

Definition days_in_month (y m : Z) : Z :=
  if m =? 2 then (if is_leap y then 29 else 28)
  else if (m =? 4) || (m =? 6) || (m =? 9) || (m =? 11) then 30
  else 31.

(** The values a [datetime] object can hold. *)
Definition valid (d : t) : Prop :=
  1 <= year d <= 9999 /\ 1 <= month d <= 12 /\
  1 <= day d <= days_in_month (year d) (month d) /\
  0 <= hour d <= 23 /\ 0 <= minute d <= 59 /\ 0 <= second d <= 59 /\
  0 <= microsecond d <= 999999.

(** [d.isoformat()] of a naive datetime:
    ["%04d-%02d-%02dT%02d:%02d:%02d"], followed by [".%06d"] when the
    microsecond field is not zero. *)
Definition isoformat (d : t) : string :=
  format_0d 4 (year d) +:+ "-" +:+ format_0d 2 (month d) +:+ "-" +:+
  format_0d 2 (day d) +:+ "T" +:+
  format_0d 2 (hour d) +:+ ":" +:+ format_0d 2 (minute d) +:+ ":" +:+
  format_0d 2 (second d) +:+
  (if microsecond d =? 0 then EmptyString
   else "." +:+ format_0d 6 (microsecond d)).

End datetime.

(** ** Recognising an ISO-8601 calendar date and time

    [YYYY-MM-DDThh:mm:ss] with an optional decimal fraction of the
    second, every field within its calendar range. *)
Module iso8601.
Import PyStr.

Definition is_digit (c : ascii) : bool := (48 <=? ord c) && (ord c <=? 57).
Definition digit_val (c : ascii) : Z := ord c - 48.

(** Read exactly [w] digits, most significant first. *)
Fixpoint read_digits (w : nat) (acc : Z) (s : string) : option (Z * string) :=
  match w with
  | O => Some (acc, s)
  | S w' =>
      match s with
      | String c s' =>
          if is_digit c then read_digits w' (10 * acc + digit_val c) s' else None
      | EmptyString => None
      end
  end.

Definition expect (c : ascii) (s : string) : option string :=
  match s with
  | String d s' => if Ascii.eqb c d then Some s' else None
  | EmptyString => None
  end.

Fixpoint all_digits (s : string) : bool :=
  match s with
  | EmptyString => true
  | String c s' => is_digit c && all_digits s'
  end.

Definition fraction_ok (s : string) : bool :=
  match s with
  | EmptyString => true
  | String c digits =>
      Ascii.eqb c "." && negb (String.eqb digits EmptyString) && all_digits digits
  end.

Definition in_range (lo hi n : Z) : bool := (lo <=? n) && (n <=? hi).

Definition parse (s : string) : option datetime.t :=
  '(y, s) ← read_digits 4 0 s;
  s ← expect "-" s;
  '(m, s) ← read_digits 2 0 s;
  s ← expect "-" s;
  '(d, s) ← read_digits 2 0 s;
  s ← expect "T" s;
  '(hh, s) ← read_digits 2 0 s;
  s ← expect ":" s;
  '(mm, s) ← read_digits 2 0 s;
  s ← expect ":" s;
  '(ss, s) ← read_digits 2 0 s;
  if fraction_ok s
     && in_range 1 12 m && in_range 1 (datetime.days_in_month y m) d
     && in_range 0 23 hh && in_range 0 59 mm && in_range 0 59 ss
  then Some (datetime.mk y m d hh mm ss 0)
  else None.

Definition is_iso8601 (s : string) : bool :=
  match parse s with Some _ => true | None => false end.

End iso8601.

(* ===================================================================== *)
(** * The [json] module *)
(* ===================================================================== *)

(** What [json.dump] writes and what [json.load] reads back.  Numbers
    keep their lexeme; an object keeps its members in document order
    (a later duplicate key shadows an earlier one on lookup, as in the
    [dict] Python builds).  A [\uXXXX] escape naming a code point above
    255 is outside the modelled character set and is reported as a
    decoding error. *)
Module json.
Import PyStr.

Inductive value : Type :=
| Null
| Bool (b : bool)
| Number (lexeme : string)
| Str (s : string)
| Array (items : list value)
| Object (members : list (string * value)).

(** ** Encoding ([ensure_ascii=True], default separators) *)

Definition hex_char (d : Z) : ascii :=
  if d <? 10 then chr (48 + d) else chr (87 + d).

(** ['{0:04x}'.format(n)] for [n < 0x10000] *)
Definition hex4 (n : Z) : string :=
  String (hex_char (n / 4096 mod 16))
    (String (hex_char (n / 256 mod 16))
       (String (hex_char (n / 16 mod 16))
          (String (hex_char (n mod 16)) EmptyString))).

Definition escape_char (c : ascii) : string :=
  if Ascii.eqb c dquote then String backslash (str1 dquote)
  else if Ascii.eqb c backslash then String backslash (str1 backslash)
  else if Ascii.eqb c "008" then "\b"
  else if Ascii.eqb c "012" then "\f"
  else if Ascii.eqb c "010" then "\n"
  else if Ascii.eqb c "013" then "\r"
  else if Ascii.eqb c "009" then "\t"
  else if (32 <=? ord c) && (ord c <=? 126) then str1 c
  else "\u" +:+ hex4 (ord c).

Fixpoint escape (s : string) : string :=
  match s with
  | EmptyString => EmptyString
  | String c s' => escape_char c +:+ escape s'
  end.

Definition encode_str (s : string) : string :=
  String dquote (escape s +:+ str1 dquote).

Fixpoint dumps (v : value) : string :=
  match v with
  | Null => "null"
  | Bool true => "true"
  | Bool false => "false"
  | Number lexeme => lexeme
  | Str s => encode_str s
  | Array items =>
      "[" +:+ join ", " (map dumps items) +:+ "]"
  | Object members =>
      "{" +:+
      join ", " (map (fun kv => encode_str (fst kv) +:+ ": " +:+ dumps (snd kv)) members)
      +:+ "}"
  end.

(** ** Decoding *)

Definition JSONDecodeError (msg : string) : exn := Raised "JSONDecodeError" msg.

Definition is_ws (c : ascii) : bool :=
  Ascii.eqb c " " || Ascii.eqb c "009" || Ascii.eqb c "010" || Ascii.eqb c "013".

Fixpoint skip_ws (s : string) : string :=
  match s with
  | String c s' => if is_ws c then skip_ws s' else s
  | EmptyString => s
  end.

Definition hex_val (c : ascii) : option Z :=
  let n := ord c in
  if (48 <=? n) && (n <=? 57) then Some (n - 48)
  else if (97 <=? n) && (n <=? 102) then Some (n - 87)
  else if (65 <=? n) && (n <=? 70) then Some (n - 55)
  else None.

Definition decode_hex4 (a b c d : ascii) : option Z :=
  x ← hex_val a; y ← hex_val b; z ← hex_val c; w ← hex_val d;
  Some (4096 * x + 256 * y + 16 * z + w).

Definition prepend (c : ascii) (r : exn + (string * string)) : exn + (string * string) :=
  match r with
  | inr (s, rest) => inr (String c s, rest)
  | inl e => inl e
  end.

(** The body of a string literal, after its opening quote (strict
    mode: raw control characters are rejected). Returns the decoded
    string and the text following the closing quote.  An escape for a
    code point above 255 denotes a character outside the modelled range
    and is reported as an error here, where Python decodes it. *)
Fixpoint scanstring (s : string) : exn + (string * string) :=
  match s with
  | EmptyString => inl (JSONDecodeError "Unterminated string starting at")
  | String c rest =>
      if Ascii.eqb c dquote then inr (EmptyString, rest)
      else if Ascii.eqb c backslash then
        match rest with
        | EmptyString => inl (JSONDecodeError "Unterminated string starting at")
        | String e rest' =>
            if Ascii.eqb e "u" then
              match rest' with
              | String h1 (String h2 (String h3 (String h4 rest''))) =>
                  match decode_hex4 h1 h2 h3 h4 with
                  | Some n =>
                      if n <? 256 then prepend (chr n) (scanstring rest'')
                      else inl (Raised "UnicodeError" "code point outside the modelled character set")
                  | None => inl (JSONDecodeError "Invalid \uXXXX escape")
                  end
              | _ => inl (JSONDecodeError "Invalid \uXXXX escape")
              end
            else if Ascii.eqb e dquote then prepend dquote (scanstring rest')
            else if Ascii.eqb e backslash then prepend backslash (scanstring rest')
            else if Ascii.eqb e "/" then prepend "/" (scanstring rest')
            else if Ascii.eqb e "b" then prepend "008" (scanstring rest')
            else if Ascii.eqb e "f" then prepend "012" (scanstring rest')
            else if Ascii.eqb e "n" then prepend "010" (scanstring rest')
            else if Ascii.eqb e "r" then prepend "013" (scanstring rest')
            else if Ascii.eqb e "t" then prepend "009" (scanstring rest')
            else inl (JSONDecodeError "Invalid \escape")
        end
      else if ord c <? 32 then inl (JSONDecodeError "Invalid control character at")
      else prepend c (scanstring rest)
  end.

Definition is_digit (c : ascii) : bool := (48 <=? ord c) && (ord c <=? 57).

(** Longest prefix of digits, and what follows. *)
Fixpoint span_digits (s : string) : string * string :=
  match s with
  | String c s' =>
      if is_digit c then let '(ds, r) := span_digits s' in (String c ds, r)
      else (EmptyString, s)
  | EmptyString => (EmptyString, s)
  end.

(** Integer part: an optional minus sign, then either a single zero
    or a non-zero digit followed by any digits. *)
Definition scan_integer (s : string) : option (string * string) :=
  let '(sign, body) :=
    match s with
    | String c s' => if Ascii.eqb c "-" then ("-", s') else (EmptyString, s)
    | EmptyString => (EmptyString, s)
    end in
  match body with
  | String c r =>
      if Ascii.eqb c "0" then Some (sign +:+ "0", r)
      else if is_digit c then
        let '(ds, r') := span_digits body in Some (sign +:+ ds, r')
      else None
  | EmptyString => None
  end.

(** Optional fraction: a dot followed by at least one digit. *)
Definition scan_fraction (s : string) : string * string :=
  match s with
  | String c s' =>
      if Ascii.eqb c "." then
        match span_digits s' with
        | (EmptyString, _) => (EmptyString, s)
        | (ds, r) => (String "." ds, r)
        end
      else (EmptyString, s)
  | EmptyString => (EmptyString, s)
  end.

(** Optional exponent: e or E, an optional sign, at least one digit. *)
Definition scan_exponent (s : string) : string * string :=
  match s with
  | String e s' =>
      if Ascii.eqb e "e" || Ascii.eqb e "E" then
        let '(sign, body) :=
          match s' with
          | String c b =>
              if Ascii.eqb c "-" || Ascii.eqb c "+" then (str1 c, b)
              else (EmptyString, s')
          | EmptyString => (EmptyString, s')
          end in
        match span_digits body with
        | (EmptyString, _) => (EmptyString, s)
        | (ds, r) => (String e (sign +:+ ds), r)
        end
      else (EmptyString, s)
  | EmptyString => (EmptyString, s)
  end.

Definition scan_number (s : string) : option (string * string) :=
  '(int, r) ← scan_integer s;
  let '(frac, r) := scan_fraction r in
  let '(exp, r) := scan_exponent r in
  Some (int +:+ frac +:+ exp, r).

(** [s] without its prefix [word], when it starts with it. *)
Fixpoint strip_prefix (word s : string) : option string :=
  match word with
  | EmptyString => Some s
  | String c word' =>
      match s with
      | String d s' => if Ascii.eqb c d then strip_prefix word' s' else None
      | EmptyString => None
      end
  end.

Definition literal (word : string) (v : value) (s : string) : option (value * string) :=
  match strip_prefix word s with
  | Some rest => Some (v, rest)
  | None => None
  end.

(** [null], [true], [false] *)
Definition scan_keyword (s : string) : option (value * string) :=
  match literal "null" Null s with
  | Some r => Some r
  | None =>
      match literal "true" (Bool true) s with
      | Some r => Some r
      | None => literal "false" (Bool false) s
      end
  end.

(** [NaN], [Infinity], [-Infinity], which Python accepts. *)
Definition scan_nonfinite (s : string) : option (value * string) :=
  match literal "NaN" (Number "NaN") s with
  | Some r => Some r
  | None =>
      match literal "Infinity" (Number "Infinity") s with
      | Some r => Some r
      | None => literal "-Infinity" (Number "-Infinity") s
      end
  end.

(** [scan_once], [JSONObject] (from the first key's opening quote on)
    and [JSONArray] (from the first item on).  [fuel] bounds the
    number of nested calls; running out is Python's [RecursionError]. *)
Fixpoint scan_once (fuel : nat) (s : string) : exn + (value * string) :=
  match fuel with
  | O => inl (Raised "RecursionError" "maximum recursion depth exceeded")
  | S f =>
      match s with
      | EmptyString => inl (JSONDecodeError "Expecting value")
      | String c rest =>
          if Ascii.eqb c dquote then
            match scanstring rest with
            | inr (str, r) => inr (Str str, r)
            | inl e => inl e
            end
          else if Ascii.eqb c "{" then
            match skip_ws rest with
            | String d r =>
                if Ascii.eqb d "}" then inr (Object [], r)
                else if Ascii.eqb d dquote then object_pairs f [] r
                else inl (JSONDecodeError
                            "Expecting property name enclosed in double quotes")
            | EmptyString =>
                inl (JSONDecodeError
                       "Expecting property name enclosed in double quotes")
            end
          else if Ascii.eqb c "[" then
            match skip_ws rest with
            | String d r =>
                if Ascii.eqb d "]" then inr (Array [], r)
                else array_items f [] (String d r)
            | EmptyString => array_items f [] EmptyString
            end
          else
            match scan_keyword s with
            | Some (v, r) => inr (v, r)
            | None =>
                match scan_number s with
                | Some (lexeme, r) => inr (Number lexeme, r)
                | None =>
                    match scan_nonfinite s with
                    | Some (v, r) => inr (v, r)
                    | None => inl (JSONDecodeError "Expecting value")
                    end
                end
            end
      end
  end

with object_pairs (fuel : nat) (acc : list (string * value)) (s : string)
  : exn + (value * string) :=
  match fuel with
  | O => inl (Raised "RecursionError" "maximum recursion depth exceeded")
  | S f =>
      match scanstring s with
      | inl e => inl e
      | inr (key, r) =>
          match skip_ws r with
          | String colon r1 =>
              if Ascii.eqb colon ":" then
                match scan_once f (skip_ws r1) with
                | inl e => inl e
                | inr (v, r2) =>
                    let acc' := acc ++ [(key, v)] in
                    match skip_ws r2 with
                    | String d r3 =>
                        if Ascii.eqb d "}" then inr (Object acc', r3)
                        else if Ascii.eqb d "," then
                          match skip_ws r3 with
                          | String q r4 =>
                              if Ascii.eqb q dquote then object_pairs f acc' r4
                              else inl (JSONDecodeError
                                          "Expecting property name enclosed in double quotes")
                          | EmptyString =>
                              inl (JSONDecodeError
                                     "Expecting property name enclosed in double quotes")
                          end
                        else inl (JSONDecodeError "Expecting ',' delimiter")
                    | EmptyString => inl (JSONDecodeError "Expecting ',' delimiter")
                    end
                end
              else inl (JSONDecodeError "Expecting ':' delimiter")
          | EmptyString => inl (JSONDecodeError "Expecting ':' delimiter")
          end
      end
  end

with array_items (fuel : nat) (acc : list value) (s : string)
  : exn + (value * string) :=
  match fuel with
  | O => inl (Raised "RecursionError" "maximum recursion depth exceeded")
  | S f =>
      match scan_once f s with
      | inl e => inl e
      | inr (v, r) =>
          let acc' := acc ++ [v] in
          match skip_ws r with
          | String d r1 =>
              if Ascii.eqb d "]" then inr (Array acc', r1)
              else if Ascii.eqb d "," then array_items f acc' (skip_ws r1)
              else inl (JSONDecodeError "Expecting ',' delimiter")
          | EmptyString => inl (JSONDecodeError "Expecting ',' delimiter")
          end
      end
  end.

(** [json.loads(s)]: one value, surrounded by optional white space.
    Twice the length of the text is fuel enough for any text (see
    [loads_fuel_enough] below), so the bound never shows; CPython's own
    recursion limit on deeply nested documents is not modelled, nor is
    its limit on the number of digits of an integer.  The properties
    below use the parser on the records [save_token] writes, and
    otherwise only through what holds for every parser of JSON: a text
    whose first character after white space is not a brace is not read
    as an object. *)
Definition loads (s : string) : exn + value :=
  match scan_once (S (2 * String.length s)) (skip_ws s) with
  | inl e => inl e
  | inr (v, rest) =>
      match skip_ws rest with
      | EmptyString => inr v
      | String _ _ => inl (JSONDecodeError "Extra data")
      end
  end.

(** [d.get(key)] on a loaded document: [None] (here [Null]) for a
    missing key; anything but a [dict] has no [get]. *)
Fixpoint lookup_last (key : string) (members : list (string * value)) : option value :=
  match members with
  | [] => None
  | (k, v) :: rest =>
      match lookup_last key rest with
      | Some v' => Some v'
      | None => if String.eqb k key then Some v else None
      end
  end.

Definition get (d : value) (key : string) : exn + value :=
  match d with
  | Object members =>
      inr (match lookup_last key members with Some v => v | None => Null end)
  | _ => inl (Raised "AttributeError" "object has no attribute 'get'")
  end.

(** Python truthiness of a loaded value.  A number is zero by its
    digits; a float literal that merely underflows to zero is taken as
    non-zero. *)
Fixpoint lexeme_is_zero (s : string) : bool :=
  match s with
  | EmptyString => true
  | String c s' =>
      if Ascii.eqb c "e" || Ascii.eqb c "E" then true
      else if is_digit c then Ascii.eqb c "0" && lexeme_is_zero s'
      else if Ascii.eqb c "-" || Ascii.eqb c "." then lexeme_is_zero s'
      else false
  end.

Definition truthy (v : value) : bool :=
  match v with
  | Null => false
  | Bool b => b
  | Number lexeme => negb (lexeme_is_zero lexeme)
  | Str s => negb (String.eqb s EmptyString)
  | Array items => match items with [] => false | _ => true end
  | Object members => match members with [] => false | _ => true end
  end.

End json.

(* ===================================================================== *)
(** * The file system *)
(* ===================================================================== *)

Module fs.
Import PyStr.

Inductive node : Type :=
| File (text : string)
| Directory.

Definition has_nul (path : string) : bool := contains_char "000" path.

(** [os.path.exists(path)]: true for files and directories alike;
    false, without raising, for a path the OS cannot represent. *)
Definition path_exists (files : gmap string node) (path : string) : bool :=
  if has_nul path then false
  else match files !! path with Some _ => true | None => false end.

(** [open(path, "r")] followed by reading the whole file. *)
Definition read_text (files : gmap string node) (path : string) : exn + string :=
  if has_nul path then inl (Raised "ValueError" "embedded null byte")
  else
    match files !! path with
    | Some (File text) => inr text
    | Some Directory => inl (Raised "IsADirectoryError" "Is a directory")
    | None => inl (Raised "FileNotFoundError" "No such file or directory")
    end.

(** The directory a new file would be created in must exist; an empty
    directory part is the working directory. *)
Definition parent_is_directory (files : gmap string node) (path : string) : bool :=
  let d := os_path.dirname path in
  if String.eqb d EmptyString then true
  else match files !! d with Some Directory => true | _ => false end.

(** [open(path, "w")] followed by writing [text] and closing: creates
    the file or replaces its content.  The failures represented are the
    ones [open] reports from the state of the store, all before anything
    is written.  A write that fails for another reason (permissions, a
    name the file system refuses, no space left) is not represented:
    properties about saving take the outcome of the save as given. *)
Definition write_text (files : gmap string node) (path text : string)
  : exn + gmap string node :=
  if has_nul path then inl (Raised "ValueError" "embedded null byte")
  else
    match files !! path with
    | Some Directory => inl (Raised "IsADirectoryError" "Is a directory")
    | Some (File _) => inr (<[path := File text]> files)
    | None =>
        if String.eqb path EmptyString || negb (parent_is_directory files path)
        then inl (Raised "FileNotFoundError" "No such file or directory")
        else inr (<[path := File text]> files)
    end.

End fs.

(* ===================================================================== *)
(** * External collaborators *)
(* ===================================================================== *)

(** [google.oauth2.credentials.Credentials]: the handlers read the
    access token and call [to_json()]; nothing else is looked at. *)
Record Credentials : Type := {
  token : string;
  to_json : string
}.

(** The client-secrets artifact, as far as the flow uses it. *)
Record client_config : Type := {
  client_id : string;
  client_secret : string;
  auth_uri : string;
  token_uri : string
}.

(** [google_auth_oauthlib.flow.Flow] *)
Record Flow : Type := {
  flow_config : client_config;
  flow_scopes : list string;
  flow_redirect_uri : string
}.

(** Everything a request reads from outside the process: the secrets
    file, the provider's token endpoint, the identity endpoint, and the
    random values the OAuth library draws. *)
Record environment : Type := {
  load_client_secrets : string -> exn + client_config;
  token_endpoint : Flow -> string -> exn + Credentials;
  http_get_json : string -> string -> exn + json.value;
  generated_state : string;
  code_challenge : option string
}.

(** Construction of the authorization request, as done by
    [oauthlib], [requests_oauthlib] and [google_auth_oauthlib] below
    [Flow.authorization_url].  The authorization endpoint URI is taken
    to carry no query or fragment part of its own. *)
Module oauthlib.
Import PyStr.

Definition is_unreserved (c : ascii) : bool :=
  let n := ord c in
  ((48 <=? n) && (n <=? 57)) || ((65 <=? n) && (n <=? 90)) ||
  ((97 <=? n) && (n <=? 122)) ||
  Ascii.eqb c "_" || Ascii.eqb c "." || Ascii.eqb c "-" || Ascii.eqb c "~".

Definition upper_hex_char (d : Z) : ascii :=
  if d <? 10 then chr (48 + d) else chr (55 + d).

Definition percent (byte : Z) : string :=
  String "%" (String (upper_hex_char (byte / 16)) (str1 (upper_hex_char (byte mod 16)))).

(** [urllib.parse.quote_plus]: the character is UTF-8 encoded first. *)
Definition quote_plus_char (c : ascii) : string :=
  let n := ord c in
  if is_unreserved c then str1 c
  else if Ascii.eqb c " " then "+"
  else if n <? 128 then percent n
  else percent (192 + n / 64) +:+ percent (128 + n mod 64).

Fixpoint quote_plus (s : string) : string :=
  match s with
  | EmptyString => EmptyString
  | String c s' => quote_plus_char c +:+ quote_plus s'
  end.

Definition urlencode (params : list (string * string)) : string :=
  join "&" (map (fun kv => quote_plus (fst kv) +:+ "=" +:+ quote_plus (snd kv)) params).

Definition nonempty (s : string) : bool := negb (String.eqb s EmptyString).

Definition is_secure_transport (uri : string) : bool :=
  startswith (lower uri) "https://".

(** [oauthlib.oauth2.rfc6749.parameters.prepare_grant_uri] *)
Definition grant_params (client_id redirect_uri : string) (scope : list string)
    (state : string) (challenge : option string)
    (kwargs : list (string * string)) : list (string * string) :=
  [("response_type", "code"); ("client_id", client_id)]
  ++ (if nonempty redirect_uri then [("redirect_uri", redirect_uri)] else [])
  ++ (match scope with [] => [] | _ => [("scope", join " " scope)] end)
  ++ (if nonempty state then [("state", state)] else [])
  ++ (match challenge with
      | Some c => [("code_challenge", c); ("code_challenge_method", "S256")]
      | None => []
      end)
  ++ List.filter (fun kv => nonempty (snd kv)) kwargs.

Definition prepare_grant_uri (uri client_id redirect_uri : string)
    (scope : list string) (state : string) (challenge : option string)
    (kwargs : list (string * string)) : exn + string :=
  if negb (is_secure_transport uri)
  then inl (Raised "InsecureTransportError" "(insecure_transport) OAuth 2 MUST utilize https.")
  else inr (uri +:+ "?" +:+
            urlencode (grant_params client_id redirect_uri scope state challenge kwargs)).

(** [dict.setdefault] on keyword arguments kept in call order. *)
Definition setdefault (key default : string) (kwargs : list (string * string))
  : list (string * string) :=
  if existsb (fun kv => String.eqb (fst kv) key) kwargs then kwargs
  else kwargs ++ [(key, default)].

End oauthlib.

(* ===================================================================== *)
(** * The world a request runs in *)
(* ===================================================================== *)

(** Calls that leave the process. *)
Inductive call : Type :=
| FlowConstruction (secrets_file : string)
| TokenExchange (code : string)
| UserInfoRequest (url authorization : string).

Record world : Type := {
  files : gmap string fs.node;
  clock : datetime.t;
  calls : list call
}.

Definition set_files (f : gmap string fs.node) (w : world) : world :=
  {| files := f; clock := clock w; calls := calls w |}.

Definition set_clock (t : datetime.t) (w : world) : world :=
  {| files := files w; clock := t; calls := calls w |}.

Definition record_call (c : call) (w : world) : world :=
  {| files := files w; clock := clock w; calls := calls w ++ [c] |}.

(** ** Computations that read and change the world and may raise *)

Definition M (A : Type) : Type := world -> (exn + A) * world.

Definition ret {A} (a : A) : M A := fun w => (inr a, w).

Definition raise {A} (e : exn) : M A := fun w => (inl e, w).

Definition bind {A B} (m : M A) (k : A -> M B) : M B :=
  fun w =>
    match m w with
    | (inr a, w') => k a w'
    | (inl e, w') => (inl e, w')
    end.

(** [try: body  except Exception as e: handler(e)] *)
Definition try_except {A} (body : M A) (handler : exn -> M A) : M A :=
  fun w =>
    match body w with
    | (inr a, w') => (inr a, w')
    | (inl e, w') => handler e w'
    end.

(** An operation that only reads or computes. *)
Definition lift {A} (r : exn + A) : M A := fun w => (r, w).

Notation "x <- m ;; k" := (bind m (fun x => k))
  (at level 20, m at level 99, k at level 200, only parsing).
Notation "' pat <- m ;; k" := (bind m (fun x => match x with pat => k end))
  (at level 20, pat pattern, m at level 99, k at level 200, only parsing).

Definition datetime_now : M datetime.t := fun w => (inr (clock w), w).

Definition os_path_exists (path : string) : M bool :=
  fun w => (inr (fs.path_exists (files w) path), w).

Definition read_file (path : string) : M string :=
  fun w => (fs.read_text (files w) path, w).

Definition write_file (path text : string) : M unit :=
  fun w =>
    match fs.write_text (files w) path text with
    | inr files' => (inr tt, set_files files' w)
    | inl e => (inl e, w)
    end.

(* ===================================================================== *)
(** * The application *)
(* ===================================================================== *)

(** [fastapi.responses.HTMLResponse] *)
Record HTMLResponse : Type := {
  content : string;
  status_code : Z
}.

(** The JSON body of [GET /generate-auth-url]. *)
Record auth_url_response : Type := {
  auth_url : string;
  email : string
}.

(** The JSON body of [GET /token/{user_id}].  [created_at] is [None]
    when the key is absent from the body, and [Some v] when it is
    present with value [v] ([json.Null] standing for Python's [None]). *)
Record token_status : Type := {
  has_token : bool;
  created_at : option json.value;
  message : string
}.

(** [if x:] for an [Optional[str]] query parameter. *)
Definition given (x : option string) : bool :=
  match x with
  | Some s => negb (String.eqb s EmptyString)
  | None => false
  end.

Definition SCOPES : list string :=
  [ "openid";
    "https://www.googleapis.com/auth/userinfo.email";
    "https://mail.google.com/";
    "https://www.googleapis.com/auth/calendar" ].

(** The page rendered for a provider error and for an exception during
    the exchange (the two f-strings of [auth_callback] have the same
    text). *)
Definition error_html (error : string) : string :=
  "
        <html>
            <head><title>Authentication Error</title></head>
            <body>
                <h1>Authentication Error</h1>
                <p>Error: " +:+ error +:+
  "</p>
                <p>Please close this window and try again.</p>
            </body>
        </html>
        ".

Definition success_html (user_email : string) : string :=
  "
        <html>
            <head><title>Authentication Successful</title></head>
            <body>
                <h1>Authentication Successful</h1>
                <p>You have successfully authenticated with Google.</p>
                <p>Email: " +:+ user_email +:+
  "</p>
                <p>You may now close this window and return to TaskIQ.</p>
                <script>
                    // Send message to telegram bot (if opened through Telegram)
                    if (window.TelegramWebviewProxy) {
                        window.TelegramWebviewProxy.postEvent('auth_complete', {
                            email: '" +:+ user_email +:+
  "',
                            success: true
                        });
                    }
                </script>
            </body>
        </html>
        ".

Section App.

(** Configuration read from the process environment at import time. *)
Variable CLIENT_SECRETS_FILE : string.
Variable REDIRECT_URI : string.
Variable TOKEN_STORAGE_DIR : string.

Variable env : environment.

(** ** Library calls that leave the process *)

(** [Flow.from_client_secrets_file(path, scopes=..., redirect_uri=...)] *)
Definition Flow_from_client_secrets_file (path : string) (scopes : list string)
    (redirect_uri : string) : M Flow :=
  fun w =>
    (match load_client_secrets env path with
     | inr cfg => inr {| flow_config := cfg; flow_scopes := scopes;
                         flow_redirect_uri := redirect_uri |}
     | inl e => inl e
     end,
     record_call (FlowConstruction path) w).

(** [flow.fetch_token(code=code)] followed by [flow.credentials] *)
Definition fetch_token (flow : Flow) (code : string) : M Credentials :=
  fun w => (token_endpoint env flow code, record_call (TokenExchange code) w).

(** [httpx.get(url, headers={"Authorization": authorization})],
    [raise_for_status()] and [response.json()] *)
Definition httpx_get_json (url authorization : string) : M json.value :=
  fun w => (http_get_json env url authorization,
            record_call (UserInfoRequest url authorization) w).

(** [flow.authorization_url] with its keyword arguments in call
    order: returns the URL and the state. *)
Definition authorization_url (flow : Flow) (kwargs : list (string * string))
  : M (string * string) :=
  let kwargs := oauthlib.setdefault "access_type" "offline" kwargs in
  let state := generated_state env in
  url <- lift (oauthlib.prepare_grant_uri
                 (auth_uri (flow_config flow)) (client_id (flow_config flow))
                 (flow_redirect_uri flow) (flow_scopes flow)
                 state (code_challenge env) kwargs) ;;
  ret (url, state).

(** ** Helper functions *)

Definition get_flow : M Flow :=
  try_except
    (flow <- Flow_from_client_secrets_file CLIENT_SECRETS_FILE SCOPES REDIRECT_URI ;;
     ret flow)
    (fun e => raise (HTTPException 500
                       ("Failed to create OAuth flow: " +:+ str_exn e))).

Definition save_token (user_id : string) (credentials : Credentials) : M string :=
  try_except
    (let token_path :=
       os_path.join TOKEN_STORAGE_DIR
         (PyStr.replace user_id "@" "_at_" +:+ ".json") in
     now <- datetime_now ;;
     let token_data :=
       json.Object [ ("token", json.Str (to_json credentials));
                     ("created_at", json.Str (datetime.isoformat now)) ] in
     written <- write_file token_path (json.dumps token_data) ;;
     ret token_path)
    (fun e => raise (HTTPException 500
                       ("Failed to save token: " +:+ str_exn e))).

Definition get_user_info (credentials : Credentials) : M json.value :=
  try_except
    (let userinfo_url := "https://www.googleapis.com/oauth2/v2/userinfo" in
     let authorization := "Bearer " +:+ token credentials in
     httpx_get_json userinfo_url authorization)
    (fun e => raise (HTTPException 500
                       ("Failed to get user info: " +:+ str_exn e))).

(** [save_token] applied to whatever the identity endpoint returned
    under ["email"]: a value that is not a string has no [replace],
    which [save_token] reports like any other failure. *)
Definition save_token_dyn (user_email : json.value) (credentials : Credentials)
  : M string :=
  match user_email with
  | json.Str user_id => save_token user_id credentials
  | _ => raise (HTTPException 500
                  ("Failed to save token: " +:+
                   str_exn (Raised "AttributeError" "object has no attribute 'replace'")))
  end.

(** [f"{user_email}"] *)
Definition format_value (v : json.value) : string :=
  match v with
  | json.Str s => s
  | _ => json.dumps v
  end.

(** ** Routes *)

(** [GET /] *)
Definition read_root : M string := ret "TaskIQ Auth Server is running".

(** [GET /auth/google]; the [request] argument of the source is not
    used by its body and is left out. *)
Definition auth_callback (code state error : option string) : M HTMLResponse :=
  if given error then
    ret {| content := error_html (default EmptyString error); status_code := 400 |}
  else if negb (given code) then
    ret {| content := "No authorization code received"; status_code := 400 |}
  else
    try_except
      (flow <- get_flow ;;
       credentials <- fetch_token flow (default EmptyString code) ;;
       user_info <- get_user_info credentials ;;
       user_email <- lift (json.get user_info "email") ;;
       if negb (json.truthy user_email) then
         ret {| content := "Could not retrieve user email"; status_code := 400 |}
       else
         token_path <- save_token_dyn user_email credentials ;;
         ret {| content := success_html (format_value user_email);
                status_code := 200 |})
      (fun e =>
         let error_message := str_exn e in
         ret {| content := error_html error_message; status_code := 500 |}).

(** [GET /generate-auth-url] *)
Definition generate_auth_url (email : string) : M auth_url_response :=
  try_except
    (flow <- get_flow ;;
     '(auth_url, _) <- authorization_url flow
                         [ ("access_type", "offline");
                           ("include_granted_scopes", "true");
                           ("prompt", "consent") ] ;;
     ret {| auth_url := auth_url; email := email |})
    (fun e => raise (HTTPException 500
                       ("Failed to generate auth URL: " +:+ str_exn e))).

(** [GET /token/{user_id}] *)
Definition get_token (user_id : string) : M token_status :=
  let token_path :=
    os_path.join TOKEN_STORAGE_DIR
      (PyStr.replace user_id "@" "_at_" +:+ ".json") in
  present <- os_path_exists token_path ;;
  if negb present then
    ret {| has_token := false; created_at := None;
           message := "No token found for user" |}
  else
    try_except
      (text <- read_file token_path ;;
       token_data <- lift (json.loads text) ;;
       stamp <- lift (json.get token_data "created_at") ;;
       ret {| has_token := true; created_at := Some stamp;
              message := "Token found for user" |})
      (fun e =>
         ret {| has_token := false; created_at := None;
                message := "Error reading token: " +:+ str_exn e |}).

End App.

(* ===================================================================== *)
(** * Notions used to state the properties *)
(* ===================================================================== *)

(** The sanitisation as the specification words it: every ['@'] becomes
    the marker [_at_], every other character is kept. *)
Fixpoint substitute_at (user_id : string) : string :=
  match user_id with
  | EmptyString => EmptyString
  | String c rest =>
      if Ascii.eqb c "@" then "_at_" +:+ substitute_at rest
      else String c (substitute_at rest)
  end.

(** The path both [save_token] and [get_token] compute for an identifier. *)
Definition token_path (storage_dir user_id : string) : string :=
  os_path.join storage_dir (PyStr.replace user_id "@" "_at_" +:+ ".json").

(** The record [save_token] serialises. *)
Definition token_record (credentials : Credentials) (now : datetime.t) : json.value :=
  json.Object [ ("token", json.Str (to_json credentials));
                ("created_at", json.Str (datetime.isoformat now)) ].

(** What a reader finds under ["created_at"] in the file at [path]. *)
Definition stored_created_at (store : gmap string fs.node) (path : string)
  : exn + json.value :=
  match fs.read_text store path with
  | inl e => inl e
  | inr text =>
      match json.loads text with
      | inl e => inl e
      | inr doc => json.get doc "created_at"
      end
  end.

(** The three bodies [get_token] can answer with. *)
Definition no_token : token_status :=
  {| has_token := false; created_at := None; message := "No token found for user" |}.

Definition unreadable_token (e : exn) : token_status :=
  {| has_token := false; created_at := None;
     message := "Error reading token: " +:+ str_exn e |}.

Definition token_found (stamp : json.value) : token_status :=
  {| has_token := true; created_at := Some stamp; message := "Token found for user" |}.

(** [sub] occurs in [s]. *)
Definition occurs_in (sub s : string) : Prop :=
  exists before after : string, s = before +:+ sub +:+ after.


(** Exactly [w] decimal digits of [n], least significant produced first. *)
Fixpoint fixed_digits (w : nat) (n : Z) (acc : string) : string :=
  match w with
  | O => acc
  | S w' => fixed_digits w' (n / 10) (String (PyStr.digit_char (n mod 10)) acc)
  end.

(** The separator [os.path.join] inserts after the directory. *)
Definition join_separator (storage_dir : string) : string :=
  if String.eqb storage_dir EmptyString || PyStr.endswith_char storage_dir "/"
  then EmptyString else "/".

(** The query string the three keyword arguments of [generate_auth_url]
    contribute to the authorization URL. *)
Definition consent_query : string :=
  "&access_type=offline&include_granted_scopes=true&prompt=consent".

(** The keyword arguments [generate_auth_url] passes to
    [flow.authorization_url]. *)
Definition consent_kwargs : list (string * string) :=
  [ ("access_type", "offline"); ("include_granted_scopes", "true");
    ("prompt", "consent") ].

(** ** Statements of the specification, taken at their word

    Each is refuted below at a concrete input, and the statement that
    does hold is proved next to it. *)


(** "Whenever the [error] parameter is present the callback answers 400,
    echoes the value, and makes no outbound call." *)
Definition error_parameter_always_rejected
    (secrets redirect storage_dir : string) (env : environment) : Prop :=
  forall (code state : option string) (error : string) (w : world),
    exists r : HTMLResponse,
      auth_callback secrets redirect storage_dir env code state (Some error) w
        = (inr r, w) /\
      status_code r = 400 /\ occurs_in error (content r).

(** "Every successful save writes below the storage directory." *)
Definition saved_below_storage_dir (storage_dir : string) : Prop :=
  forall (user_id : string) (credentials : Credentials) (w w1 : world) (path : string),
    save_token storage_dir user_id credentials w = (inr path, w1) ->
    PyStr.startswith path storage_dir = true.

(** ** Concrete instances for the examples *)

Module Sample.

Definition credentials : Credentials :=
  {| token := "ya29.sample"; to_json := "{}" |}.

Definition config : client_config :=
  {| client_id := "client-1"; client_secret := "secret";
     auth_uri := "https://accounts.google.com/o/oauth2/auth";
     token_uri := "https://oauth2.googleapis.com/token" |}.

(** A provider that accepts every code and resolves it to [a@b]. *)
Definition provider : environment :=
  {| load_client_secrets := fun _ => inr config;
     token_endpoint := fun _ _ => inr credentials;
     http_get_json := fun _ _ => inr (json.Object [("email", json.Str "a@b")]);
     generated_state := "st8";
     code_challenge := None |}.

Definition noon : datetime.t := datetime.mk 2024 2 29 12 0 0 0.
Definition later : datetime.t := datetime.mk 2024 2 29 12 0 1 250000.

(** An empty token directory. *)
Definition fresh : world :=
  {| files := {[ "./tokens" := fs.Directory ]}; clock := noon; calls := [] |}.

(** The same, with the root directory writable as well. *)
Definition with_root : world :=
  {| files := {[ "./tokens" := fs.Directory; "/" := fs.Directory ]};
     clock := noon; calls := [] |}.

End Sample.

(** ** Notions for the exchange path *)

(** The identity endpoint [get_user_info] calls. *)
Definition userinfo_url : string := "https://www.googleapis.com/oauth2/v2/userinfo".

(** The page an exception caught by [auth_callback] is rendered as. *)
Definition page500 (e : exn) : HTMLResponse :=
  {| content := error_html (str_exn e); status_code := 500 |}.

(** ** Environments in which a step fails *)

Module Faulty.

(** The client-secrets file cannot be read. *)
Definition no_secrets : environment :=
  {| load_client_secrets :=
       fun _ => inl (Raised "FileNotFoundError" "No such file or directory");
     token_endpoint := fun _ _ => inr Sample.credentials;
     http_get_json := fun _ _ => inr (json.Object [("email", json.Str "a@b")]);
     generated_state := "st8";
     code_challenge := None |}.

(** The provider rejects the code. *)
Definition bad_code : environment :=
  {| load_client_secrets := fun _ => inr Sample.config;
     token_endpoint := fun _ _ => inl (Raised "InvalidGrantError" "(invalid_grant) Bad Request");
     http_get_json := fun _ _ => inr (json.Object [("email", json.Str "a@b")]);
     generated_state := "st8";
     code_challenge := None |}.

(** The identity endpoint answers with an error status. *)
Definition no_identity : environment :=
  {| load_client_secrets := fun _ => inr Sample.config;
     token_endpoint := fun _ _ => inr Sample.credentials;
     http_get_json := fun _ _ => inl (Raised "HTTPStatusError" "401 Unauthorized");
     generated_state := "st8";
     code_challenge := None |}.

(** The identity endpoint answers without an email. *)
Definition no_email : environment :=
  {| load_client_secrets := fun _ => inr Sample.config;
     token_endpoint := fun _ _ => inr Sample.credentials;
     http_get_json := fun _ _ => inr (json.Object [("id", json.Str "42")]);
     generated_state := "st8";
     code_challenge := None |}.

End Faulty.

Module Deployment.

Definition secrets : string := "secrets.json".
Definition redirect : string := "https://taskiq.io/auth/google".

End Deployment.

(* ===================================================================== *)
(** * How [GET /token/{user_id}] is served *)
(* ===================================================================== *)

(** The handler returns a dict and the framework renders it with
    [json.dumps(..., allow_nan=False)], which raises [ValueError] on a
    float that is not finite; an exception at that point is answered
    with status 500.  [json.load] reads a number as a float when its
    text has a fraction or an exponent, and as one of the three
    constants otherwise accepted; [float] turns a decimal of magnitude
    2^1024 - 2^970 or more into infinity.  Only this failure of the
    rendering is represented. *)

Module served.

(** The decimal digits of [s], most significant first, read onto [acc]. *)
Fixpoint digits_value (acc : Z) (s : string) : Z :=
  match s with
  | EmptyString => acc
  | String c s' => digits_value (10 * acc + (PyStr.ord c - 48)) s'
  end.

(** A number lexeme taken apart: whether it denotes a float, and its
    magnitude as [mantissa * 10 ^ exponent]. *)
Record decimal : Type := {
  is_float : bool;
  mantissa : Z;
  exponent : Z
}.

Definition read_decimal (lexeme : string) : decimal :=
  let body :=
    match lexeme with
    | String c s' => if Ascii.eqb c "-" then s' else lexeme
    | EmptyString => lexeme
    end in
  let '(int, r1) := json.span_digits body in
  let '(has_frac, frac, r2) :=
    match r1 with
    | String c s' =>
        if Ascii.eqb c "." then
          let '(ds, r) := json.span_digits s' in (true, ds, r)
        else (false, EmptyString, r1)
    | EmptyString => (false, EmptyString, r1)
    end in
  let '(has_exp, exp) :=
    match r2 with
    | String e s' =>
        if Ascii.eqb e "e" || Ascii.eqb e "E" then
          match s' with
          | String c b =>
              if Ascii.eqb c "-" then
                (true, - digits_value 0 (fst (json.span_digits b)))
              else if Ascii.eqb c "+" then
                (true, digits_value 0 (fst (json.span_digits b)))
              else (true, digits_value 0 (fst (json.span_digits s')))
          | EmptyString => (true, 0)
          end
        else (false, 0)
    | EmptyString => (false, 0)
    end in
  {| is_float := has_frac || has_exp;
     mantissa := digits_value 0 (int +:+ frac);
     exponent := exp - Z.of_nat (String.length frac) |}.

(** The least magnitude that rounds to infinity: half way between the
    largest double and 2^1024. *)
Definition overflow_bound : Z := 2 ^ 1024 - 2 ^ 970.

Definition overflows (d : decimal) : bool :=
  is_float d &&
  (if 0 <=? exponent d then overflow_bound <=? mantissa d * 10 ^ exponent d
   else overflow_bound * 10 ^ (- exponent d) <=? mantissa d).

(** The float a lexeme is read as is [nan] or infinite. *)
Definition not_finite (lexeme : string) : bool :=
  String.eqb lexeme "NaN" || String.eqb lexeme "Infinity"
  || String.eqb lexeme "-Infinity" || overflows (read_decimal lexeme).

(** [json.dumps(v, allow_nan=False)] raises. *)
Fixpoint unrenderable (v : json.value) : bool :=
  match v with
  | json.Number lexeme => not_finite lexeme
  | json.Array items => existsb unrenderable items
  | json.Object members => existsb (fun kv => unrenderable (snd kv)) members
  | _ => false
  end.

End served.

(** The status the route answers with: 200 with the rendered dict, 500
    when rendering it raises, the status of an [HTTPException] and 500
    for any other exception of the handler. *)
Definition get_token_status (storage_dir user_id : string) (w : world) : Z :=
  match fst (get_token storage_dir user_id w) with
  | inr body =>
      match created_at body with
      | Some stamp => if served.unrenderable stamp then 500 else 200
      | None => 200
      end
  | inl (HTTPException status _) => status
  | inl (Raised _ _) => 500
  end.


Module Tampered.

(** A token file whose [created_at] is a number too large for a float. *)
Definition huge_stamp : string :=
  "{" +:+ PyStr.str1 PyStr.dquote +:+ "created_at" +:+ PyStr.str1 PyStr.dquote
  +:+ ": 1e400}".

Definition store : world :=
  {| files := {[ "./tokens" := fs.Directory;
                 "./tokens/a_at_b.json" := fs.File huge_stamp ]};
     clock := Sample.noon; calls := [] |}.


End Tampered.

(* ===================================================================== *)
(** * Worked examples *)
(* ===================================================================== *)

Example replace_every_at :
  PyStr.replace "a@b@@c" "@" "_at_" = "a_at_b_at__at_c".
Proof. reflexivity. Qed.

Example replace_does_not_overlap : PyStr.replace "aaa" "aa" "b" = "ba".
Proof. reflexivity. Qed.

Example replace_empty_pattern : PyStr.replace "ab" EmptyString "-" = "-a-b-".
Proof. reflexivity. Qed.

Example join_plain : os_path.join "./tokens" "a_at_b.json" = "./tokens/a_at_b.json".
Proof. reflexivity. Qed.

Example join_trailing_separator :
  os_path.join "./tokens/" "a_at_b.json" = "./tokens/a_at_b.json".
Proof. reflexivity. Qed.

Example join_absolute : os_path.join "./tokens" "/x_at_y.json" = "/x_at_y.json".
Proof. reflexivity. Qed.

Example dirname_of_token_path : os_path.dirname "./tokens/a_at_b.json" = "./tokens".
Proof. reflexivity. Qed.

Example isoformat_without_fraction :
  datetime.isoformat Sample.noon = "2024-02-29T12:00:00".
Proof. vm_compute. reflexivity. Qed.

Example isoformat_with_fraction :
  datetime.isoformat Sample.later = "2024-02-29T12:00:01.250000".
Proof. vm_compute. reflexivity. Qed.

Example loads_nested :
  let q := PyStr.str1 PyStr.dquote in
  json.loads (" { " +:+ q +:+ "a" +:+ q +:+ " : [1, -2.5e3, true, null], " +:+
              q +:+ "b" +:+ q +:+ ": {" +:+ q +:+ "c" +:+ q +:+ ": " +:+
              q +:+ "\u00e9\n" +:+ q +:+ "} } ")
  = inr (json.Object
           [ ("a", json.Array [json.Number "1"; json.Number "-2.5e3";
                               json.Bool true; json.Null]);
             ("b", json.Object
                     [("c", json.Str (String "233" (String "010" EmptyString)))]) ]).
Proof. vm_compute. reflexivity. Qed.

Example loads_trailing_comma :
  json.loads "[1,]" = inl (json.JSONDecodeError "Expecting value").
Proof. vm_compute. reflexivity. Qed.

Example loads_leading_zero :
  json.loads "01" = inl (json.JSONDecodeError "Extra data").
Proof. vm_compute. reflexivity. Qed.

Example lookup_on_empty_store :
  fst (get_token "./tokens" "a@b" Sample.fresh) = inr no_token.
Proof. vm_compute. reflexivity. Qed.

(** A file that is not JSON, a JSON document that is not an object, and
    a directory sitting at the path all degrade to [has_token] false. *)
Example lookup_on_corrupted_file :
  fst (get_token "./tokens" "a@b"
         (set_files (<["./tokens/a_at_b.json" := fs.File "{oops"]> (files Sample.fresh))
            Sample.fresh))
  = inr (unreadable_token
           (json.JSONDecodeError "Expecting property name enclosed in double quotes")).
Proof. vm_compute. reflexivity. Qed.

Example lookup_on_json_list :
  fst (get_token "./tokens" "a@b"
         (set_files (<["./tokens/a_at_b.json" := fs.File "[1, 2]"]> (files Sample.fresh))
            Sample.fresh))
  = inr (unreadable_token (Raised "AttributeError" "object has no attribute 'get'")).
Proof. vm_compute. reflexivity. Qed.

Example lookup_on_directory :
  fst (get_token "./tokens" "a@b"
         (set_files (<["./tokens/a_at_b.json" := fs.Directory]> (files Sample.fresh))
            Sample.fresh))
  = inr (unreadable_token (Raised "IsADirectoryError" "Is a directory")).
Proof. vm_compute. reflexivity. Qed.

(** An object without the key is a token whose [created_at] is [None]. *)
Example lookup_without_created_at :
  fst (get_token "./tokens" "a@b"
         (set_files (<["./tokens/a_at_b.json" := fs.File "{}"]> (files Sample.fresh))
            Sample.fresh))
  = inr (token_found json.Null).
Proof. vm_compute. reflexivity. Qed.

(** The whole callback on a provider that resolves the code to [a@b]:
    three outbound calls, one file written, a 200 page. *)
Example callback_success :
  let r := auth_callback "secrets.json" "https://taskiq.io/auth/google" "./tokens"
             Sample.provider (Some "c0de") (Some "st8") None Sample.fresh in
  fst r = inr {| content := success_html "a@b"; status_code := 200 |} /\
  calls (snd r)
  = [ FlowConstruction "secrets.json"; TokenExchange "c0de";
      UserInfoRequest "https://www.googleapis.com/oauth2/v2/userinfo"
        "Bearer ya29.sample" ] /\
  files (snd r) !! "./tokens/a_at_b.json"
  = Some (fs.File (json.dumps (token_record Sample.credentials Sample.noon))).
Proof. vm_compute. split_and!; reflexivity. Qed.

(** [error=] with a code: the empty value does not stop the exchange. *)
Example callback_empty_error :
  auth_callback "secrets.json" "https://taskiq.io/auth/google" "./tokens"
    Sample.provider (Some "c0de") None (Some EmptyString) Sample.fresh
  = auth_callback "secrets.json" "https://taskiq.io/auth/google" "./tokens"
      Sample.provider (Some "c0de") None None Sample.fresh.
Proof. reflexivity. Qed.

(** A failing token endpoint is rendered as a 500 page. *)
Example callback_exchange_failure :
  fst (auth_callback "secrets.json" "https://taskiq.io/auth/google" "./tokens"
         {| load_client_secrets := fun _ => inr Sample.config;
            token_endpoint := fun _ _ => inl (Raised "InvalidGrantError" "invalid_grant");
            http_get_json := fun _ _ => inr json.Null;
            generated_state := "st8";
            code_challenge := None |}
         (Some "used") None None Sample.fresh)
  = inr {| content := error_html "invalid_grant"; status_code := 500 |}.
Proof. vm_compute. reflexivity. Qed.

(** An identity answer without an [email] is a 400. *)
Example callback_missing_email :
  fst (auth_callback "secrets.json" "https://taskiq.io/auth/google" "./tokens"
         {| load_client_secrets := fun _ => inr Sample.config;
            token_endpoint := fun _ _ => inr Sample.credentials;
            http_get_json := fun _ _ => inr (json.Object [("id", json.Str "42")]);
            generated_state := "st8";
            code_challenge := None |}
         (Some "c0de") None None Sample.fresh)
  = inr {| content := "Could not retrieve user email"; status_code := 400 |}.
Proof. vm_compute. reflexivity. Qed.

Example lookup_on_huge_created_at :
  fst (get_token "./tokens" "a@b" Tampered.store)
  = inr (token_found (json.Number "1e400")).
Proof. vm_compute. reflexivity. Qed.

Example huge_created_at_is_served_500 :
  get_token_status "./tokens" "a@b" Tampered.store = 500.
Proof. vm_compute. reflexivity. Qed.

Example largest_double_is_finite :
  served.not_finite "1.7976931348623157e308" = false.
Proof. vm_compute. reflexivity. Qed.

Example beyond_largest_double :
  served.not_finite "1.7976931348623159e308" = true.
Proof. vm_compute. reflexivity. Qed.

Example long_integer_is_finite :
  served.not_finite "123456789012345678901234567890" = false.
Proof. vm_compute. reflexivity. Qed.

(* ===================================================================== *)
(** * Facts about strings *)
(* ===================================================================== *)

Lemma str_app_cons (c : ascii) (a b : string) : String c a +:+ b = String c (a +:+ b).
Proof. reflexivity. Qed.

Lemma str_app_empty (b : string) : EmptyString +:+ b = b.
Proof. reflexivity. Qed.

Lemma str_app_assoc (a b c : string) : (a +:+ b) +:+ c = a +:+ (b +:+ c).
Proof.
  induction a as [|x a IH]; [reflexivity|].
  rewrite !str_app_cons. f_equal. exact IH.
Qed.

Lemma str_length_cons (c : ascii) (s : string) :
  String.length (String c s) = S (String.length s).
Proof. reflexivity. Qed.

Lemma str_length_app (a b : string) :
  String.length (a +:+ b) = (String.length a + String.length b)%nat.
Proof.
  induction a as [|x a IH]; [reflexivity|].
  rewrite str_app_cons, !str_length_cons, IH. reflexivity.
Qed.

Lemma contains_char_app (c : ascii) (a b : string) :
  PyStr.contains_char c (a +:+ b) = PyStr.contains_char c a || PyStr.contains_char c b.
Proof.
  induction a as [|x a IH]; [reflexivity|].
  rewrite str_app_cons. cbn [PyStr.contains_char].
  destruct (Ascii.eqb c x); [reflexivity | exact IH].
Qed.

Lemma startswith_empty (s : string) : PyStr.startswith s EmptyString = true.
Proof. destruct s; reflexivity. Qed.

(** On the one-character pattern ['@'] Python's [replace] is the
    character-wise substitution. *)
Lemma replace_at_substitute (user_id : string) :
  PyStr.replace user_id "@" "_at_" = substitute_at user_id.
Proof.
  unfold PyStr.replace.
  induction user_id as [|c rest IH]; [reflexivity|].
  cbn [PyStr.replace_scan PyStr.startswith substitute_at].
  rewrite startswith_empty, (Ascii.eqb_sym "@" c).
  destruct (Ascii.eqb c "@"); cbn [String.length Nat.pred]; now rewrite IH.
Qed.

Lemma substitute_at_clean (user_id : string) :
  PyStr.contains_char "@" (substitute_at user_id) = false.
Proof.
  induction user_id as [|c rest IH]; [reflexivity|].
  cbn [substitute_at]. destruct (Ascii.eqb_spec c "@") as [->|Hne].
  - rewrite contains_char_app, IH. reflexivity.
  - cbn [PyStr.contains_char]. rewrite Ascii.eqb_sym.
    destruct (Ascii.eqb_spec c "@"); [contradiction | exact IH].
Qed.

Lemma substitute_at_first (user_id : string) :
  PyStr.startswith user_id "/" = false ->
  PyStr.startswith (substitute_at user_id +:+ ".json") "/" = false.
Proof.
  destruct user_id as [|c rest]; [reflexivity|].
  cbn [substitute_at PyStr.startswith]. rewrite !startswith_empty.
  destruct (Ascii.eqb_spec c "@") as [->|Hne]; [reflexivity|].
  rewrite str_app_cons. cbn [PyStr.startswith]. now rewrite startswith_empty.
Qed.

Lemma join_relative (a b : string) :
  PyStr.startswith b "/" = false ->
  os_path.join a b = a +:+ join_separator a +:+ b.
Proof.
  intros H. unfold os_path.join, join_separator. rewrite H.
  destruct (String.eqb a EmptyString || PyStr.endswith_char a "/"); reflexivity.
Qed.

Lemma substitute_at_without_at (s : string) :
  PyStr.contains_char "@" s = false -> substitute_at s = s.
Proof.
  induction s as [|c s IH]; [reflexivity|].
  cbn [PyStr.contains_char substitute_at]. rewrite (Ascii.eqb_sym c "@").
  destruct (Ascii.eqb "@" c); [discriminate|]. intros H. now rewrite IH.
Qed.

Lemma substitute_at_fixed_only_without_at (s : string) :
  substitute_at s = s -> PyStr.contains_char "@" s = false.
Proof. intros H. rewrite <- H. apply substitute_at_clean. Qed.

Lemma substitute_at_idempotent (s : string) :
  substitute_at (substitute_at s) = substitute_at s.
Proof. apply substitute_at_without_at, substitute_at_clean. Qed.

(** A character foreign to the marker occurs in the sanitized name
    exactly when it occurs in the identifier. *)
Lemma substitute_at_keeps (c : ascii) (s : string) :
  Ascii.eqb c "@" = false -> PyStr.contains_char c "_at_" = false ->
  PyStr.contains_char c (substitute_at s) = PyStr.contains_char c s.
Proof.
  intros Hat Hmarker. induction s as [|d s IH]; [reflexivity|].
  cbn [substitute_at PyStr.contains_char].
  destruct (Ascii.eqb_spec d "@") as [->|Hd].
  - rewrite contains_char_app, Hmarker, Hat, IH. reflexivity.
  - cbn [PyStr.contains_char]. now rewrite IH.
Qed.

Lemma no_char_no_start (c : ascii) (s : string) :
  PyStr.contains_char c s = false -> PyStr.startswith s (PyStr.str1 c) = false.
Proof.
  destruct s as [|d s]; [reflexivity|].
  cbn [PyStr.contains_char PyStr.startswith PyStr.str1].
  destruct (Ascii.eqb c d); [discriminate | reflexivity].
Qed.

Lemma str_app_inv_head (a b c : string) : a +:+ b = a +:+ c -> b = c.
Proof.
  induction a as [|x a IH]; [now rewrite !str_app_empty|].
  rewrite !str_app_cons. intros [= H]. now apply IH.
Qed.

Lemma str_app_inv_tail (a b c : string) : a +:+ c = b +:+ c -> a = b.
Proof.
  revert b. induction a as [|x a IH]; intros b H.
  - destruct b as [|y b]; [reflexivity|].
    apply (f_equal String.length) in H.
    rewrite str_app_empty, str_app_cons, str_length_cons, str_length_app in H. lia.
  - destruct b as [|y b].
    + apply (f_equal String.length) in H.
      rewrite str_app_empty, str_app_cons, str_length_cons, str_length_app in H. lia.
    + rewrite !str_app_cons in H. injection H as -> H. f_equal. now apply IH.
Qed.

(** Without underscores in the identifiers, the marker can be told
    apart from ordinary text. *)
Lemma substitute_at_injective (u v : string) :
  PyStr.contains_char "_" u = false -> PyStr.contains_char "_" v = false ->
  substitute_at u = substitute_at v -> u = v.
Proof.
  revert v. induction u as [|c u IH]; intros v Hu Hv H.
  - destruct v as [|d v]; [reflexivity|].
    cbn [substitute_at] in H. destruct (Ascii.eqb d "@"); discriminate H.
  - destruct v as [|d v].
    + cbn [substitute_at] in H. destruct (Ascii.eqb c "@"); discriminate H.
    + cbn [PyStr.contains_char] in Hu, Hv.
      destruct (Ascii.eqb_spec "_" c) as [|Hc]; [discriminate|].
      destruct (Ascii.eqb_spec "_" d) as [|Hd]; [discriminate|].
      cbn [substitute_at] in H.
      destruct (Ascii.eqb_spec c "@") as [->|Hca], (Ascii.eqb_spec d "@") as [->|Hda].
      * apply str_app_inv_head in H. f_equal. now apply IH.
      * rewrite !str_app_cons in H. injection H as H _. congruence.
      * rewrite !str_app_cons in H. injection H as H _. congruence.
      * injection H as -> H. f_equal. now apply IH.
Qed.

(* ===================================================================== *)
(** * The JSON codec reads back what it wrote *)
(* ===================================================================== *)

Lemma scanstring_escape_char (a : ascii) (rest : string) :
  json.scanstring (json.escape_char a +:+ rest)
  = json.prepend a (json.scanstring rest).
Proof. destruct a as [[] [] [] [] [] [] [] []]; reflexivity. Qed.

Lemma scanstring_escape (s rest : string) :
  json.scanstring (json.escape s +:+ String PyStr.dquote rest) = inr (s, rest).
Proof.
  induction s as [|a s IH]; [reflexivity|].
  cbn [json.escape].
  rewrite str_app_assoc, scanstring_escape_char, IH. reflexivity.
Qed.

Lemma encode_str_app (s rest : string) :
  json.encode_str s +:+ rest
  = String PyStr.dquote (json.escape s +:+ String PyStr.dquote rest).
Proof. unfold json.encode_str. rewrite str_app_cons, str_app_assoc. reflexivity. Qed.

Ltac norm_app :=
  repeat first [ rewrite str_app_cons | rewrite str_app_empty
               | rewrite str_app_assoc | rewrite encode_str_app ].

(** One member with a string value, followed by the closing brace. *)
Lemma object_pairs_last (f : nat) (acc : list (string * json.value))
    (key v rest : string) :
  json.object_pairs (S (S f)) acc
    (json.escape key +:+ String PyStr.dquote (String ":" (String " "
       (String PyStr.dquote (json.escape v +:+ String PyStr.dquote (String "}" rest))))))
  = inr (json.Object (acc ++ [(key, json.Str v)]), rest).
Proof.
  simpl. rewrite scanstring_escape. simpl. rewrite scanstring_escape. reflexivity.
Qed.

(** One member with a string value, followed by a further member. *)
Lemma object_pairs_more (f : nat) (acc : list (string * json.value))
    (key v rest : string) :
  json.object_pairs (S (S f)) acc
    (json.escape key +:+ String PyStr.dquote (String ":" (String " "
       (String PyStr.dquote (json.escape v +:+ String PyStr.dquote
          (String "," (String " " (String PyStr.dquote rest))))))))
  = json.object_pairs (S f) (acc ++ [(key, json.Str v)]) rest.
Proof.
  simpl. rewrite scanstring_escape. simpl. rewrite scanstring_escape. reflexivity.
Qed.

Lemma scan_once_object (f : nat) (rest : string) :
  json.scan_once (S f) (String "{" (String PyStr.dquote rest))
  = json.object_pairs f [] rest.
Proof. reflexivity. Qed.

Lemma loads_two_strings (k1 k2 a b : string) :
  json.loads (json.dumps (json.Object [(k1, json.Str a); (k2, json.Str b)]))
  = inr (json.Object [(k1, json.Str a); (k2, json.Str b)]).
Proof.
  unfold json.loads.
  cbn [json.dumps map PyStr.join fst snd].
  norm_app.
  change (json.skip_ws (String "{" ?s)) with (String "{" s).
  rewrite !str_length_cons, str_length_app, !str_length_cons.
  cbn [Nat.mul]. rewrite !Nat.add_succ_r. cbn [Nat.add].
  rewrite scan_once_object, object_pairs_more, object_pairs_last.
  reflexivity.
Qed.

Lemma loads_token_record (credentials : Credentials) (now : datetime.t) :
  json.loads (json.dumps (token_record credentials now))
  = inr (token_record credentials now).
Proof. apply loads_two_strings. Qed.

Lemma token_record_created_at (credentials : Credentials) (now : datetime.t) :
  json.get (token_record credentials now) "created_at"
  = inr (json.Str (datetime.isoformat now)).
Proof. reflexivity. Qed.

(* ===================================================================== *)
(** * The parser consumes its input and has fuel enough *)
(* ===================================================================== *)

Lemma skip_ws_le (s : string) : (String.length (json.skip_ws s) <= String.length s)%nat.
Proof.
  induction s as [|c s IH]; [reflexivity|].
  cbn [json.skip_ws]. destruct (json.is_ws c); cbn [String.length]; lia.
Qed.

Lemma prepend_inr (c : ascii) (r : exn + (string * string)) (k rest : string) :
  json.prepend c r = inr (k, rest) -> exists k', r = inr (k', rest).
Proof. destruct r as [e|[k' rest']]; [discriminate|]. intros [= _ <-]. now exists k'. Qed.

Lemma scanstring_shorter_aux (n : nat) :
  forall s k r, (String.length s <= n)%nat ->
    json.scanstring s = inr (k, r) -> (String.length r < String.length s)%nat.
Proof.
  induction n as [|n IH]; intros s k r Hn Hscan.
  - destruct s; [discriminate | cbn [String.length] in Hn; lia].
  - destruct s as [|c rest]; [discriminate|].
    cbn [json.scanstring] in Hscan. cbn [String.length] in Hn |- *.
    repeat match type of Hscan with
           | (if ?b then _ else _) = _ => destruct b
           | match ?x with _ => _ end = _ => destruct x
           | json.prepend _ _ = _ => apply prepend_inr in Hscan as [k' Hscan]; apply IH in Hscan
           | inr _ = inr _ => injection Hscan as <- <-
           | inl _ = inr _ => discriminate Hscan
           end; cbn [String.length] in *; try lia.
Qed.

Lemma scanstring_shorter (s k r : string) :
  json.scanstring s = inr (k, r) -> (String.length r < String.length s)%nat.
Proof. apply (scanstring_shorter_aux (String.length s)). lia. Qed.

Lemma span_digits_le (s ds r : string) :
  json.span_digits s = (ds, r) -> (String.length r <= String.length s)%nat.
Proof.
  revert ds r. induction s as [|c s IH]; intros ds r H; cbn [json.span_digits] in H.
  - injection H as <- <-. reflexivity.
  - destruct (json.is_digit c).
    + destruct (json.span_digits s) as [ds' r'] eqn:Hs. injection H as <- <-.
      specialize (IH _ _ eq_refl). cbn [String.length]. lia.
    + injection H as <- <-. reflexivity.
Qed.

Ltac split_scan H :=
  repeat match type of H with
         | (let '(_, _) := ?x in _) = _ => destruct x eqn:?
         | match ?x with _ => _ end = _ => destruct x eqn:?
         | (if ?b then _ else _) = _ => destruct b eqn:?
         end;
  repeat match goal with
         | E : (_, _) = (_, _) |- _ => injection E as <- <-
         | E : Some _ = Some _ |- _ => injection E as <- <-
         | E : inr _ = inr _ |- _ => injection E as <- <-
         | E : None = Some _ |- _ => discriminate E
         | E : inl _ = inr _ |- _ => discriminate E
         | E : json.span_digits _ = _ |- _ => apply span_digits_le in E
         end;
  cbn [String.length] in *.

Lemma span_digits_shorter (c : ascii) (s ds r : string) :
  json.is_digit c = true -> json.span_digits (String c s) = (ds, r) ->
  (String.length r <= String.length s)%nat.
Proof.
  intros Hc H. cbn [json.span_digits] in H. rewrite Hc in H.
  destruct (json.span_digits s) as [ds' r'] eqn:Hs. injection H as <- <-.
  now apply span_digits_le in Hs.
Qed.

Lemma scan_integer_shorter (s lexeme r : string) :
  json.scan_integer s = Some (lexeme, r) -> (String.length r < String.length s)%nat.
Proof.
  unfold json.scan_integer. intros H.
  destruct s as [|c s']; [discriminate|].
  destruct (Ascii.eqb c "-").
  - split_scan H; lia.
  - destruct (Ascii.eqb c "0"); [injection H as <- <-; cbn [String.length]; lia|].
    destruct (json.is_digit c) eqn:Hc; [|discriminate].
    destruct (json.span_digits (String c s')) as [ds r'] eqn:Hspan.
    injection H as <- <-. apply span_digits_shorter in Hspan; [|exact Hc].
    cbn [String.length]. lia.
Qed.

Lemma scan_fraction_le (s frac r : string) :
  json.scan_fraction s = (frac, r) -> (String.length r <= String.length s)%nat.
Proof. unfold json.scan_fraction. intros H. split_scan H; lia. Qed.

Lemma scan_exponent_le (s exp r : string) :
  json.scan_exponent s = (exp, r) -> (String.length r <= String.length s)%nat.
Proof.
  unfold json.scan_exponent. intros H.
  destruct s as [|e s']; [injection H as <- <-; reflexivity|].
  destruct (Ascii.eqb e "e" || Ascii.eqb e "E"); [|injection H as <- <-; reflexivity].
  destruct s' as [|c b]; [split_scan H; lia|].
  destruct (Ascii.eqb c "-" || Ascii.eqb c "+"); split_scan H; lia.
Qed.

Lemma scan_number_shorter (s lexeme r : string) :
  json.scan_number s = Some (lexeme, r) -> (String.length r < String.length s)%nat.
Proof.
  unfold json.scan_number. intros H.
  destruct (json.scan_integer s) as [[int r1]|] eqn:Hint; [|discriminate].
  cbn [mbind option_bind] in H.
  destruct (json.scan_fraction r1) as [frac r2] eqn:Hfrac.
  destruct (json.scan_exponent r2) as [exp r3] eqn:Hexp.
  injection H as <- <-.
  apply scan_integer_shorter in Hint. apply scan_fraction_le in Hfrac.
  apply scan_exponent_le in Hexp. lia.
Qed.

Lemma strip_prefix_le (word s r : string) :
  json.strip_prefix word s = Some r ->
  (String.length r + String.length word = String.length s)%nat.
Proof.
  revert s. induction word as [|c word IH]; intros s H; cbn [json.strip_prefix] in H.
  - injection H as <-. cbn [String.length]. lia.
  - destruct s as [|d s]; [discriminate|].
    destruct (Ascii.eqb c d); [|discriminate].
    apply IH in H. cbn [String.length]. lia.
Qed.

Lemma literal_shorter (word : string) (v v' : json.value) (s r : string) :
  word <> EmptyString -> json.literal word v s = Some (v', r) ->
  (String.length r < String.length s)%nat.
Proof.
  intros Hword H. unfold json.literal in H.
  destruct (json.strip_prefix word s) as [rest|] eqn:Hstrip; [|discriminate].
  injection H as _ <-. apply strip_prefix_le in Hstrip.
  destruct word; [contradiction|]. cbn [String.length] in Hstrip. lia.
Qed.

Lemma scan_keyword_shorter (s : string) (v : json.value) (r : string) :
  json.scan_keyword s = Some (v, r) -> (String.length r < String.length s)%nat.
Proof.
  unfold json.scan_keyword. intros H.
  repeat match type of H with
         | match ?x with _ => _ end = _ => destruct x as [[? ?]|] eqn:?
         end;
  try injection H as <- <-;
  match goal with
  | E : json.literal _ _ _ = Some _ |- _ => now apply literal_shorter in E
  | _ => now apply literal_shorter in H
  end.
Qed.

Lemma scan_nonfinite_shorter (s : string) (v : json.value) (r : string) :
  json.scan_nonfinite s = Some (v, r) -> (String.length r < String.length s)%nat.
Proof.
  unfold json.scan_nonfinite. intros H.
  repeat match type of H with
         | match ?x with _ => _ end = _ => destruct x as [[? ?]|] eqn:?
         end;
  try injection H as <- <-;
  match goal with
  | E : json.literal _ _ _ = Some _ |- _ => now apply literal_shorter in E
  | _ => now apply literal_shorter in H
  end.
Qed.

Ltac crack H :=
  repeat match type of H with
         | match ?x with _ => _ end = inr _ => destruct x eqn:?
         | (if ?b then _ else _) = inr _ => destruct b eqn:?
         | inl _ = inr _ => discriminate H
         end.

Ltac measure_all IH1 IH2 IH3 :=
  repeat match goal with
         | E : inr _ = inr _ |- _ => injection E as <- <-
         | E : json.scanstring _ = inr _ |- _ => apply scanstring_shorter in E
         | E : json.scan_number _ = Some _ |- _ => apply scan_number_shorter in E
         | E : json.scan_once _ _ = inr _ |- _ => apply IH1 in E
         | E : json.object_pairs _ _ _ = inr _ |- _ => apply IH2 in E
         | E : json.array_items _ _ _ = inr _ |- _ => apply IH3 in E
         | E : json.skip_ws ?x = _ |- _ =>
             let L := fresh "L" in pose proof (skip_ws_le x) as L; rewrite E in L; clear E
         | E : context [String.length (json.skip_ws ?x)] |- _ =>
             lazymatch goal with
             | _ : (String.length (json.skip_ws x) <= String.length x)%nat |- _ => fail
             | _ => pose proof (skip_ws_le x)
             end
         | E : json.scan_keyword _ = Some _ |- _ => apply scan_keyword_shorter in E
         | E : json.scan_nonfinite _ = Some _ |- _ => apply scan_nonfinite_shorter in E
         end;
  cbn [String.length] in *.

Lemma scan_shorter (fuel : nat) :
  (forall s v r, json.scan_once fuel s = inr (v, r) ->
                 (String.length r < String.length s)%nat) /\
  (forall acc s v r, json.object_pairs fuel acc s = inr (v, r) ->
                     (String.length r < String.length s)%nat) /\
  (forall acc s v r, json.array_items fuel acc s = inr (v, r) ->
                     (String.length r < String.length s)%nat).
Proof.
  induction fuel as [|f (IH1 & IH2 & IH3)]; [split_and!; intros; discriminate|].
  split_and!.
  - intros s v r H. cbn [json.scan_once] in H.
    crack H; measure_all IH1 IH2 IH3; lia.
  - intros acc s v r H. cbn [json.object_pairs] in H.
    crack H; measure_all IH1 IH2 IH3; lia.
  - intros acc s v r H. cbn [json.array_items] in H.
    crack H; measure_all IH1 IH2 IH3; lia.
Qed.

Lemma scan_once_shorter (fuel : nat) (s : string) (v : json.value) (r : string) :
  json.scan_once fuel s = inr (v, r) -> (String.length r < String.length s)%nat.
Proof. apply scan_shorter. Qed.

Ltac measure :=
  repeat match goal with
         | E : json.scanstring _ = inr _ |- _ => apply scanstring_shorter in E
         | E : json.scan_once _ _ = inr _ |- _ => apply scan_once_shorter in E
         | E : json.skip_ws ?x = _ |- _ =>
             let L := fresh "L" in pose proof (skip_ws_le x) as L; rewrite E in L; clear E
         | |- context [String.length (json.skip_ws ?x)] =>
             lazymatch goal with
             | _ : (String.length (json.skip_ws x) <= String.length x)%nat |- _ => fail
             | _ => pose proof (skip_ws_le x)
             end
         | _ : context [String.length (json.skip_ws ?x)] |- _ =>
             lazymatch goal with
             | _ : (String.length (json.skip_ws x) <= String.length x)%nat |- _ => fail
             | _ => pose proof (skip_ws_le x)
             end
         end;
  cbn [String.length] in *.

Ltac align H1 H2 H3 :=
  repeat first
    [ reflexivity
    | rewrite H1 by (measure; lia)
    | rewrite H2 by (measure; lia)
    | rewrite H3 by (measure; lia)
    | match goal with |- match ?x with _ => _ end = _ => destruct x eqn:? end
    | match goal with |- (if ?b then _ else _) = _ => destruct b eqn:? end ].

(** If two fuels agree on all shorter texts, their successors agree on
    the text itself. *)
Lemma scan_fuel_congruence (g f n : nat) :
  (forall x, (2 * String.length x + 1 <= n)%nat -> json.scan_once g x = json.scan_once f x) ->
  (forall acc x, (2 * String.length x + 1 <= n)%nat ->
                 json.object_pairs g acc x = json.object_pairs f acc x) ->
  (forall acc x, (2 * String.length x + 2 <= n)%nat ->
                 json.array_items g acc x = json.array_items f acc x) ->
  (forall s, (2 * String.length s + 1 <= S n)%nat ->
             json.scan_once (S g) s = json.scan_once (S f) s) /\
  (forall acc s, (2 * String.length s + 1 <= S n)%nat ->
                 json.object_pairs (S g) acc s = json.object_pairs (S f) acc s) /\
  (forall acc s, (2 * String.length s + 2 <= S n)%nat ->
                 json.array_items (S g) acc s = json.array_items (S f) acc s).
Proof.
  intros H1 H2 H3. split_and!.
  - intros s Hs. cbn [json.scan_once]. align H1 H2 H3.
  - intros acc s Hs. cbn [json.object_pairs]. align H1 H2 H3.
  - intros acc s Hs. cbn [json.array_items]. align H1 H2 H3.
Qed.

Lemma scan_fuel_step (f : nat) :
  (forall s, (2 * String.length s + 1 <= f)%nat -> json.scan_once (S f) s = json.scan_once f s) /\
  (forall acc s, (2 * String.length s + 1 <= f)%nat ->
                 json.object_pairs (S f) acc s = json.object_pairs f acc s) /\
  (forall acc s, (2 * String.length s + 2 <= f)%nat ->
                 json.array_items (S f) acc s = json.array_items f acc s).
Proof.
  induction f as [|f (IH1 & IH2 & IH3)]; [split_and!; intros; lia|].
  now apply scan_fuel_congruence.
Qed.

(** Fuel beyond twice the length of the text changes nothing. *)
Lemma scan_once_fuel_stable (f extra : nat) (s : string) :
  (2 * String.length s + 1 <= f)%nat ->
  json.scan_once (f + extra) s = json.scan_once f s.
Proof.
  intros Hf. induction extra as [|extra IH]; [now rewrite Nat.add_0_r|].
  rewrite Nat.add_succ_r.
  destruct (scan_fuel_step (f + extra)) as [Hstep _].
  rewrite Hstep by lia. exact IH.
Qed.

(** In particular the fuel [loads] passes is enough for every text. *)
Lemma loads_fuel_enough (extra : nat) (s : string) :
  json.scan_once (S (2 * String.length s) + extra) (json.skip_ws s)
  = json.scan_once (S (2 * String.length s)) (json.skip_ws s).
Proof. apply scan_once_fuel_stable. pose proof (skip_ws_le s). lia. Qed.

(* ===================================================================== *)
(** * Only a text that begins with a brace is read as an object *)
(* ===================================================================== *)







(* ===================================================================== *)
(** * Zero-padded decimal formatting and the ISO-8601 shape *)
(* ===================================================================== *)

Lemma zeros_shift (j : nat) (acc : string) :
  PyStr.zeros j (String "0" acc) = String "0" (PyStr.zeros j acc).
Proof. induction j as [|j IH]; [reflexivity|]. cbn [PyStr.zeros]. now rewrite IH. Qed.

Lemma fixed_digits_zero (j : nat) (acc : string) :
  fixed_digits j 0 acc = PyStr.zeros j acc.
Proof.
  revert acc. induction j as [|j IH]; intros acc; [reflexivity|].
  cbn [fixed_digits PyStr.zeros].
  change (0 / 10) with 0. change (PyStr.digit_char (0 mod 10)) with "0"%char.
  now rewrite IH, zeros_shift.
Qed.

Lemma div10_bounds (n : Z) (k : nat) :
  0 <= n < 10 ^ Z.of_nat (S k) -> 0 <= n / 10 < 10 ^ Z.of_nat k.
Proof.
  intros Hn. rewrite Nat2Z.inj_succ, Z.pow_succ_r in Hn by lia.
  split; [apply Z.div_pos; lia | apply Z.div_lt_upper_bound; lia].
Qed.

Lemma fixed_digits_pad (k j : nat) (n : Z) (acc : string) :
  0 <= n < 10 ^ Z.of_nat k ->
  fixed_digits (k + j) n acc = PyStr.zeros j (fixed_digits k n acc).
Proof.
  revert n acc. induction k as [|k IH]; intros n acc Hn.
  - change (10 ^ Z.of_nat 0) with 1 in Hn. assert (n = 0) as -> by lia.
    apply fixed_digits_zero.
  - cbn [Nat.add fixed_digits]. apply IH, div10_bounds, Hn.
Qed.

Lemma fixed_digits_length (k : nat) (n : Z) (acc : string) :
  String.length (fixed_digits k n acc) = (k + String.length acc)%nat.
Proof.
  revert n acc. induction k as [|k IH]; intros n acc; [reflexivity|].
  cbn [fixed_digits]. rewrite IH, str_length_cons. lia.
Qed.

(** With enough fuel, [decimal_digits] writes the shortest fixed-width
    rendering. *)
Lemma decimal_digits_fixed (f : nat) (n : Z) (acc : string) :
  0 <= n < 10 ^ Z.of_nat (S f) ->
  exists k : nat,
    (1 <= k)%nat /\ n < 10 ^ Z.of_nat k /\
    (k = 1%nat \/ 10 ^ Z.of_nat (k - 1) <= n) /\
    PyStr.decimal_digits (S f) n acc = fixed_digits k n acc.
Proof.
  revert n acc. induction f as [|f IH]; intros n acc Hn.
  - change (10 ^ Z.of_nat 1) with 10 in Hn. exists 1%nat.
    cbn [PyStr.decimal_digits fixed_digits]. destruct (Z.ltb_spec n 10); [|lia].
    split_and!; [lia | change (10 ^ Z.of_nat 1) with 10; lia | now left | reflexivity].
  - cbn [PyStr.decimal_digits]. destruct (Z.ltb_spec n 10) as [Hlt|Hge].
    + exists 1%nat.
      split_and!; [lia | change (10 ^ Z.of_nat 1) with 10; lia | now left | reflexivity].
    + destruct (IH (n / 10) (String (PyStr.digit_char (n mod 10)) acc))
        as (k & Hk1 & Hk2 & Hk3 & Hk4); [apply div10_bounds, Hn|].
      pose proof (Z.div_mod n 10 ltac:(lia)) as Hdm.
      pose proof (Z.mod_pos_bound n 10 ltac:(lia)) as Hmod.
      exists (S k). split_and!; [lia | | | exact Hk4].
      * rewrite Nat2Z.inj_succ, Z.pow_succ_r by lia. lia.
      * right. replace (S k - 1)%nat with (S (k - 1)) by lia.
        rewrite Nat2Z.inj_succ, Z.pow_succ_r by lia.
        destruct Hk3 as [->|Hk3]; [change (10 ^ Z.of_nat (1 - 1)) with 1; lia | lia].
Qed.

Lemma format_0d_fixed (w : nat) (n : Z) :
  (1 <= w)%nat -> 0 <= n < 10 ^ Z.of_nat w ->
  PyStr.format_0d w n = fixed_digits w n EmptyString.
Proof.
  intros Hw Hn. unfold PyStr.format_0d, PyStr.str_int.
  destruct (Z.ltb_spec n 0); [lia|].
  destruct (decimal_digits_fixed (Z.to_nat (Z.log2 n)) n EmptyString)
    as (k & Hk1 & Hk2 & Hk3 & ->).
  { split; [lia|]. destruct (Z.eq_dec n 0) as [->|]; [reflexivity|].
    pose proof (Z.log2_spec n ltac:(lia)) as [_ Hlog].
    rewrite Nat2Z.inj_succ, Z2Nat.id by apply Z.log2_nonneg.
    eapply Z.lt_le_trans; [exact Hlog|].
    apply Z.pow_le_mono_l. lia. }
  assert (k <= w)%nat as Hkw.
  { destruct Hk3 as [->|Hk3]; [lia|].
    assert (10 ^ Z.of_nat (k - 1) < 10 ^ Z.of_nat w) as Hlt by lia.
    apply Z.pow_lt_mono_r_iff in Hlt; lia. }
  unfold PyStr.zfill. rewrite fixed_digits_length. cbn [String.length].
  replace (w - (k + 0))%nat with (w - k)%nat by lia.
  rewrite <- fixed_digits_pad by lia. f_equal. lia.
Qed.

Lemma digit_cases (x : Z) : 0 <= x < 10 ->
  x = 0 \/ x = 1 \/ x = 2 \/ x = 3 \/ x = 4 \/ x = 5 \/ x = 6 \/ x = 7 \/ x = 8 \/ x = 9.
Proof. lia. Qed.

Ltac each_digit x H :=
  destruct (digit_cases x H) as [->|[->|[->|[->|[->|[->|[->|[->|[->| ->]]]]]]]]].

Lemma is_digit_digit_char (x : Z) :
  0 <= x < 10 -> iso8601.is_digit (PyStr.digit_char x) = true.
Proof. intros H. each_digit x H; reflexivity. Qed.

Lemma digit_val_digit_char (x : Z) :
  0 <= x < 10 -> iso8601.digit_val (PyStr.digit_char x) = x.
Proof. intros H. each_digit x H; reflexivity. Qed.

Lemma mod10_digit (n : Z) : 0 <= n mod 10 < 10.
Proof. apply Z.mod_pos_bound. lia. Qed.

Lemma read_digit_step (w : nat) (acc x : Z) (s : string) :
  0 <= x < 10 ->
  iso8601.read_digits (S w) acc (String (PyStr.digit_char x) s)
  = iso8601.read_digits w (10 * acc + x) s.
Proof.
  intros H. cbn [iso8601.read_digits].
  now rewrite is_digit_digit_char, digit_val_digit_char.
Qed.

Lemma read_digits_2 (n : Z) (rest : string) :
  0 <= n < 100 ->
  iso8601.read_digits 2 0 (fixed_digits 2 n EmptyString +:+ rest) = Some (n, rest).
Proof.
  intros H. cbn [fixed_digits]. rewrite !str_app_cons, str_app_empty.
  rewrite !read_digit_step by apply mod10_digit. cbn [iso8601.read_digits].
  f_equal. f_equal.
  pose proof (Z.div_mod n 10 ltac:(lia)). pose proof (mod10_digit n).
  rewrite (Z.mod_small (n / 10) 10)
    by (split; [apply Z.div_pos; lia | apply Z.div_lt_upper_bound; lia]).
  lia.
Qed.

Lemma read_digits_4 (n : Z) (rest : string) :
  0 <= n < 10000 ->
  iso8601.read_digits 4 0 (fixed_digits 4 n EmptyString +:+ rest) = Some (n, rest).
Proof.
  intros H. cbn [fixed_digits]. rewrite !str_app_cons, str_app_empty.
  rewrite !read_digit_step by apply mod10_digit. cbn [iso8601.read_digits].
  f_equal. f_equal.
  pose proof (Z.div_mod n 10 ltac:(lia)). pose proof (mod10_digit n).
  pose proof (Z.div_mod (n / 10) 10 ltac:(lia)). pose proof (mod10_digit (n / 10)).
  pose proof (Z.div_mod (n / 10 / 10) 10 ltac:(lia)).
  pose proof (mod10_digit (n / 10 / 10)).
  rewrite (Z.mod_small (n / 10 / 10 / 10) 10)
    by (split; [repeat apply Z.div_pos; lia | repeat apply Z.div_lt_upper_bound; lia]).
  lia.
Qed.

Lemma all_digits_fixed (w : nat) (n : Z) (acc : string) :
  iso8601.all_digits acc = true -> iso8601.all_digits (fixed_digits w n acc) = true.
Proof.
  revert n acc. induction w as [|w IH]; intros n acc H; [exact H|].
  cbn [fixed_digits]. apply IH. cbn [iso8601.all_digits].
  now rewrite is_digit_digit_char, H by apply mod10_digit.
Qed.

Lemma expect_cons (c : ascii) (s : string) : iso8601.expect c (String c s) = Some s.
Proof. unfold iso8601.expect. now rewrite Ascii.eqb_refl. Qed.

Lemma in_range_true (lo hi n : Z) : lo <= n <= hi -> iso8601.in_range lo hi n = true.
Proof.
  intros H. unfold iso8601.in_range. apply andb_true_iff. split; apply Z.leb_le; lia.
Qed.

Lemma fraction_ok_isoformat (us : Z) :
  0 <= us <= 999999 ->
  iso8601.fraction_ok
    (if us =? 0 then EmptyString else "." +:+ PyStr.format_0d 6 us) = true.
Proof.
  intros H. destruct (us =? 0); [reflexivity|].
  rewrite format_0d_fixed by (try lia; change (10 ^ Z.of_nat 6) with 1000000; lia).
  rewrite str_app_cons, str_app_empty. unfold iso8601.fraction_ok.
  rewrite Ascii.eqb_refl, all_digits_fixed by reflexivity.
  cbn [fixed_digits]. reflexivity.
Qed.

Ltac read_field :=
  first [ rewrite read_digits_4 by lia | rewrite read_digits_2 by lia ];
  cbn [mbind option_bind].

Ltac read_separator :=
  rewrite str_app_cons, str_app_empty, expect_cons; cbn [mbind option_bind].

(** [isoformat] writes a timestamp the recogniser reads back, field by
    field (the fraction of the second is checked, not returned). *)
Lemma parse_isoformat (d : datetime.t) :
  datetime.valid d ->
  iso8601.parse (datetime.isoformat d)
  = Some (datetime.mk (datetime.year d) (datetime.month d) (datetime.day d)
            (datetime.hour d) (datetime.minute d) (datetime.second d) 0).
Proof.
  intros (Hy & Hm & Hd & Hh & Hmi & Hs & Hus).
  assert (datetime.days_in_month (datetime.year d) (datetime.month d) <= 31) as Hdim.
  { unfold datetime.days_in_month.
    repeat match goal with |- context [if ?b then _ else _] => destruct b end; lia. }
  unfold datetime.isoformat, iso8601.parse.
  rewrite (format_0d_fixed 4) by (try lia; change (10 ^ Z.of_nat 4) with 10000; lia).
  rewrite !(format_0d_fixed 2) by (try lia; change (10 ^ Z.of_nat 2) with 100; lia).
  read_field. do 5 (read_separator; read_field).
  rewrite fraction_ok_isoformat by lia.
  rewrite !in_range_true by lia. reflexivity.
Qed.

Lemma isoformat_is_iso8601 (d : datetime.t) :
  datetime.valid d -> iso8601.is_iso8601 (datetime.isoformat d) = true.
Proof. intros H. unfold iso8601.is_iso8601. now rewrite parse_isoformat. Qed.

(* ===================================================================== *)
(** * The credential store *)
(* ===================================================================== *)

Lemma write_text_inr (store store' : gmap string fs.node) (path text : string) :
  fs.write_text store path text = inr store' ->
  store' = <[path := fs.File text]> store /\ fs.has_nul path = false.
Proof.
  unfold fs.write_text. destruct (fs.has_nul path); [discriminate|].
  destruct (store !! path) as [[old|]|]; try discriminate.
  - intros [= <-]. now split.
  - destruct (String.eqb path EmptyString || negb (fs.parent_is_directory store path));
      [discriminate|].
    intros [= <-]. now split.
Qed.

(** Writing over a regular file always succeeds. *)
Lemma write_text_over_file (store : gmap string fs.node) (path old text : string) :
  fs.has_nul path = false -> store !! path = Some (fs.File old) ->
  fs.write_text store path text = inr (<[path := fs.File text]> store).
Proof. intros Hnul Hold. unfold fs.write_text. now rewrite Hnul, Hold. Qed.

(** [save_token], with its [try] block evaluated. *)
Lemma save_token_eq (dir user_id : string) (credentials : Credentials) (w : world) :
  save_token dir user_id credentials w
  = match fs.write_text (files w) (token_path dir user_id)
            (json.dumps (token_record credentials (clock w))) with
    | inr store' => (inr (token_path dir user_id), set_files store' w)
    | inl e => (inl (HTTPException 500 ("Failed to save token: " +:+ str_exn e)), w)
    end.
Proof.
  unfold save_token, try_except, bind, datetime_now, write_file, ret, raise,
    token_path, token_record.
  destruct (fs.write_text _ _ _); reflexivity.
Qed.

Lemma save_token_inr (dir user_id : string) (credentials : Credentials)
    (w w1 : world) (path : string) :
  save_token dir user_id credentials w = (inr path, w1) ->
  path = token_path dir user_id /\ fs.has_nul path = false /\
  w1 = set_files
         (<[path := fs.File (json.dumps (token_record credentials (clock w)))]> (files w))
         w.
Proof.
  rewrite save_token_eq.
  destruct (fs.write_text _ _ _) as [e|store'] eqn:Hwrite; [discriminate|].
  intros [= <- <-]. apply write_text_inr in Hwrite as [-> Hnul]. now split_and!.
Qed.



(** [get_token], with its [try] block evaluated: it always returns a
    body and never changes the world. *)
Lemma get_token_eq (dir user_id : string) (w : world) :
  get_token dir user_id w
  = (inr (if fs.path_exists (files w) (token_path dir user_id)
          then match stored_created_at (files w) (token_path dir user_id) with
               | inr stamp => token_found stamp
               | inl e => unreadable_token e
               end
          else no_token),
     w).
Proof.
  unfold get_token, bind, os_path_exists, try_except, read_file, lift, ret,
    stored_created_at. fold (token_path dir user_id).
  destruct (fs.path_exists _ _); [|reflexivity]. cbn [negb].
  destruct (fs.read_text _ _) as [e|text]; [reflexivity|].
  destruct (json.loads text) as [e|doc]; [reflexivity|].
  destruct (json.get doc "created_at"); reflexivity.
Qed.

Lemma path_exists_none (store : gmap string fs.node) (path : string) :
  store !! path = None -> fs.path_exists store path = false.
Proof. intros H. unfold fs.path_exists. rewrite H. now destruct (fs.has_nul path). Qed.

(** Right after a save the file is there, readable, and holds the
    record that was written. *)
Lemma get_token_after_save (dir user_id : string) (credentials : Credentials)
    (w w1 : world) (path : string) :
  save_token dir user_id credentials w = (inr path, w1) ->
  fs.read_text (files w1) path
    = inr (json.dumps (token_record credentials (clock w))) /\
  get_token dir user_id w1
    = (inr (token_found (json.Str (datetime.isoformat (clock w)))), w1).
Proof.
  intros Hsave. apply save_token_inr in Hsave as (Hpath & Hnul & ->).
  assert (fs.read_text
            (<[path := fs.File (json.dumps (token_record credentials (clock w)))]> (files w))
            path
          = inr (json.dumps (token_record credentials (clock w)))) as Hread.
  { unfold fs.read_text. now rewrite Hnul, lookup_insert_eq. }
  split; [exact Hread|].
  rewrite get_token_eq. cbn [files set_files]. rewrite <- Hpath.
  unfold fs.path_exists, stored_created_at.
  rewrite Hnul, lookup_insert_eq, Hread, loads_token_record, token_record_created_at.
  reflexivity.
Qed.





(* ===================================================================== *)
(** * Properties of the token store and its lookup *)
(* ===================================================================== *)




(** C2: when a save for an identifier has succeeded, a second save for
    the same identifier succeeds too, returns the same storage key, and
    leaves the store as the original store with that one file holding
    the record of the second save: no further file appears, every other
    path is untouched, and the file reads back as the second record. *)
Theorem save_twice_last_write_wins (storage_dir user_id : string)
    (first second : Credentials) (time2 : datetime.t) (w w1 : world) (path : string) :
  save_token storage_dir user_id first w = (inr path, w1) ->
  exists w2 : world,
    save_token storage_dir user_id second (set_clock time2 w1) = (inr path, w2) /\
    files w2 = <[path := fs.File (json.dumps (token_record second time2))]> (files w) /\
    dom (files w2) = dom (files w1) /\
    (forall other : string, other <> path -> files w2 !! other = files w !! other) /\
    fs.read_text (files w2) path = inr (json.dumps (token_record second time2)) /\
    json.loads (json.dumps (token_record second time2)) = inr (token_record second time2).
Proof.
  intros Hsave. apply save_token_inr in Hsave as (Hpath & Hnul & ->).
  eexists. split.
  { rewrite save_token_eq, <- Hpath. cbn [files set_files set_clock clock].
    erewrite write_text_over_file; [reflexivity | exact Hnul | apply lookup_insert_eq]. }
  cbn [files set_files]. rewrite insert_insert_eq. split_and!.
  - reflexivity.
  - rewrite !dom_insert_L. reflexivity.
  - intros other Hother. now rewrite lookup_insert_ne.
  - unfold fs.read_text. now rewrite Hnul, lookup_insert_eq.
  - apply loads_token_record.
Qed.

Lemma save_twice_last_write_wins_witness :
  save_token "./tokens" "a@b" Sample.credentials Sample.fresh
  = (inr "./tokens/a_at_b.json",
     snd (save_token "./tokens" "a@b" Sample.credentials Sample.fresh))
  /\
  exists w2 : world,
    save_token "./tokens" "a@b" Sample.credentials
      (set_clock Sample.later
         (snd (save_token "./tokens" "a@b" Sample.credentials Sample.fresh)))
    = (inr "./tokens/a_at_b.json", w2) /\
    fs.read_text (files w2) "./tokens/a_at_b.json"
    = inr (json.dumps (token_record Sample.credentials Sample.later)).
Proof.
  assert (save_token "./tokens" "a@b" Sample.credentials Sample.fresh
          = (inr "./tokens/a_at_b.json",
             snd (save_token "./tokens" "a@b" Sample.credentials Sample.fresh)))
    as Hfirst by (vm_compute; reflexivity).
  split; [exact Hfirst|].
  destruct (save_twice_last_write_wins "./tokens" "a@b" Sample.credentials
              Sample.credentials Sample.later _ _ _ Hfirst)
    as (w2 & Hsecond & _ & _ & _ & Hread & _).
  exists w2. split; [exact Hsecond | exact Hread].
Defined.

(** C3: the file name [save_token] and [get_token] compute is the
    identifier with every ['@'] replaced by [_at_] (all other characters
    kept) followed by [.json]; it contains no ['@']; a successful save
    returns the storage directory joined with that name and has written
    the record at exactly that path, leaving every other path as it
    was; and the lookup reports "no token" exactly when nothing exists
    at that same path. *)
Theorem storage_filename_sanitized (storage_dir user_id : string) :
  PyStr.replace user_id "@" "_at_" = substitute_at user_id /\
  PyStr.contains_char "@" (PyStr.replace user_id "@" "_at_" +:+ ".json") = false /\
  (forall (credentials : Credentials) (w w1 : world) (path : string),
      save_token storage_dir user_id credentials w = (inr path, w1) ->
      path = os_path.join storage_dir (substitute_at user_id +:+ ".json") /\
      files w1
      = <[os_path.join storage_dir (substitute_at user_id +:+ ".json") :=
            fs.File (json.dumps (token_record credentials (clock w)))]> (files w)) /\
  (forall w : world,
      fst (get_token storage_dir user_id w) = inr no_token <->
      fs.path_exists (files w)
        (os_path.join storage_dir (substitute_at user_id +:+ ".json")) = false).
Proof.
  split_and!.
  - apply replace_at_substitute.
  - rewrite replace_at_substitute, contains_char_app, substitute_at_clean. reflexivity.
  - intros credentials w w1 path Hsave.
    apply save_token_inr in Hsave as (-> & _ & ->).
    unfold token_path. rewrite replace_at_substitute. now split.
  - intros w. rewrite get_token_eq. unfold token_path. rewrite replace_at_substitute.
    cbn [fst]. destruct (fs.path_exists _ _).
    + split; [|discriminate].
      destruct (stored_created_at _ _); intros [= H].
    + split; reflexivity.
Qed.

Lemma storage_filename_sanitized_witness :
  save_token "./tokens" "a@b@c" Sample.credentials Sample.fresh
  = (inr "./tokens/a_at_b_at_c.json",
     snd (save_token "./tokens" "a@b@c" Sample.credentials Sample.fresh))
  /\ "./tokens/a_at_b_at_c.json"
     = os_path.join "./tokens" (substitute_at "a@b@c" +:+ ".json")
  /\ files (snd (save_token "./tokens" "a@b@c" Sample.credentials Sample.fresh))
     = <[os_path.join "./tokens" (substitute_at "a@b@c" +:+ ".json") :=
           fs.File (json.dumps (token_record Sample.credentials (clock Sample.fresh)))]>
         (files Sample.fresh).
Proof.
  assert (save_token "./tokens" "a@b@c" Sample.credentials Sample.fresh
          = (inr "./tokens/a_at_b_at_c.json",
             snd (save_token "./tokens" "a@b@c" Sample.credentials Sample.fresh)))
    as Hsave by (vm_compute; reflexivity).
  split; [exact Hsave|].
  destruct (storage_filename_sanitized "./tokens" "a@b@c") as (_ & _ & Hpath & _).
  exact (Hpath _ _ _ _ Hsave).
Defined.

(* ===================================================================== *)
(** * Properties of the callback handler *)
(* ===================================================================== *)

Lemma error_html_echoes (error : string) : occurs_in error (error_html error).
Proof. unfold occurs_in, error_html. eexists _, _. reflexivity. Qed.

(** C4, as stated, fails: with [error=] (present but empty) and a code,
    the handler takes the exchange path, calls the provider and answers
    200. *)
Lemma error_parameter_always_rejected_fails :
  ~ error_parameter_always_rejected "secrets.json" "https://taskiq.io/auth/google"
      "./tokens" Sample.provider.
Proof.
  intros Hclaim.
  destruct (Hclaim (Some "c0de") None EmptyString Sample.fresh) as (r & Hrun & Hstatus & _).
  apply (f_equal fst) in Hrun. vm_compute in Hrun. injection Hrun as <-.
  discriminate Hstatus.
Qed.

(** C4 (amended): for every request to [GET /auth/google] whose [error]
    parameter is present and not empty, the handler answers 400 with the
    error page, in which the parameter's value occurs literally,
    whatever the [code] and [state] parameters are; the world is
    returned unchanged, so neither the flow construction nor the token
    exchange nor the identity request took place. *)
Theorem provider_error_rejected (secrets redirect storage_dir : string)
    (env : environment) (code state : option string) (error : string) (w : world) :
  error <> EmptyString ->
  auth_callback secrets redirect storage_dir env code state (Some error) w
    = (inr {| content := error_html error; status_code := 400 |}, w) /\
  occurs_in error (error_html error) /\
  calls (snd (auth_callback secrets redirect storage_dir env code state (Some error) w))
    = calls w.
Proof.
  intros Hne.
  assert (auth_callback secrets redirect storage_dir env code state (Some error) w
          = (inr {| content := error_html error; status_code := 400 |}, w)) as Hrun.
  { unfold auth_callback, given.
    destruct (String.eqb_spec error EmptyString); [contradiction | reflexivity]. }
  split_and!; [exact Hrun | apply error_html_echoes | now rewrite Hrun].
Qed.

Lemma provider_error_rejected_witness :
  "access_denied" <> EmptyString /\
  fst (auth_callback "secrets.json" "https://taskiq.io/auth/google" "./tokens"
         Sample.provider (Some "c0de") None (Some "access_denied") Sample.fresh)
  = inr {| content := error_html "access_denied"; status_code := 400 |}.
Proof.
  assert ("access_denied" <> EmptyString) as Hne by discriminate.
  split; [exact Hne|].
  destruct (provider_error_rejected "secrets.json" "https://taskiq.io/auth/google"
              "./tokens" Sample.provider (Some "c0de") None "access_denied"
              Sample.fresh Hne) as (Hrun & _ & _).
  rewrite Hrun. reflexivity.
Defined.

(** C5: a request to [GET /auth/google] with neither an [error] nor a
    [code] parameter is answered 400, and the world is returned
    unchanged: no flow was constructed and no token was fetched. *)
Theorem missing_code_rejected (secrets redirect storage_dir : string)
    (env : environment) (state : option string) (w : world) :
  auth_callback secrets redirect storage_dir env None state None w
    = (inr {| content := "No authorization code received"; status_code := 400 |}, w)
  /\ calls (snd (auth_callback secrets redirect storage_dir env None state None w))
     = calls w.
Proof. split; reflexivity. Qed.

(* ===================================================================== *)
(** * Properties of the token lookup *)
(* ===================================================================== *)




(* ===================================================================== *)
(** * The persisted record *)
(* ===================================================================== *)

(** C7, as stated, fails: for the identifier ["/x@y"] the join discards
    the storage directory and the save writes ["/x_at_y.json"]. *)
Lemma saved_below_storage_dir_fails : ~ saved_below_storage_dir "./tokens".
Proof.
  intros Hclaim.
  specialize (Hclaim "/x@y" Sample.credentials Sample.with_root
                (snd (save_token "./tokens" "/x@y" Sample.credentials Sample.with_root))
                "/x_at_y.json").
  assert (PyStr.startswith "/x_at_y.json" "./tokens" = true) as Habsurd.
  { apply Hclaim. vm_compute. reflexivity. }
  discriminate Habsurd.
Qed.

(** C7 (amended): for every successful save for an identifier that
    contains no ['/'], made at a valid clock reading, the persisted
    unit is one file directly under the storage directory: its path is
    the storage directory, a ['/'] unless the directory name is empty or
    already ends in one, and a file name without ['/'], the sanitized
    identifier followed by [.json]; its content parses as a JSON object
    with exactly the two members [token], the serialized credentials,
    and [created_at], an ISO-8601 timestamp; no other path changes. *)
Theorem save_token_persists_record (storage_dir user_id : string)
    (credentials : Credentials) (w w1 : world) (path : string) :
  PyStr.contains_char "/" user_id = false ->
  datetime.valid (clock w) ->
  save_token storage_dir user_id credentials w = (inr path, w1) ->
  path = storage_dir +:+ join_separator storage_dir +:+
         (substitute_at user_id +:+ ".json") /\
  PyStr.contains_char "/" (substitute_at user_id +:+ ".json") = false /\
  (exists text : string,
      files w1 !! path = Some (fs.File text) /\
      json.loads text
      = inr (json.Object
               [ ("token", json.Str (to_json credentials));
                 ("created_at", json.Str (datetime.isoformat (clock w))) ])) /\
  iso8601.is_iso8601 (datetime.isoformat (clock w)) = true /\
  (forall other : string, other <> path -> files w1 !! other = files w !! other).
Proof.
  intros Hplain Hvalid Hsave.
  apply save_token_inr in Hsave as (Hpath & Hnul & ->). split_and!.
  - rewrite Hpath. unfold token_path. rewrite replace_at_substitute.
    apply join_relative, substitute_at_first. now apply (no_char_no_start "/").
  - rewrite contains_char_app, substitute_at_keeps by reflexivity.
    now rewrite Hplain.
  - eexists. cbn [files set_files]. rewrite lookup_insert_eq.
    split; [reflexivity | apply loads_token_record].
  - apply isoformat_is_iso8601, Hvalid.
  - intros other Hother. cbn [files set_files]. now rewrite lookup_insert_ne.
Qed.

Lemma sample_noon_valid : datetime.valid Sample.noon.
Proof.
  unfold datetime.valid, Sample.noon.
  cbn [datetime.year datetime.month datetime.day datetime.hour datetime.minute
       datetime.second datetime.microsecond].
  change (datetime.days_in_month 2024 2) with 29. lia.
Qed.

Lemma save_token_persists_record_witness :
  PyStr.contains_char "/" "a@b" = false /\
  datetime.valid (clock Sample.fresh) /\
  save_token "./tokens" "a@b" Sample.credentials Sample.fresh
  = (inr "./tokens/a_at_b.json",
     snd (save_token "./tokens" "a@b" Sample.credentials Sample.fresh)) /\
  "./tokens/a_at_b.json"
  = "./tokens" +:+ join_separator "./tokens" +:+ (substitute_at "a@b" +:+ ".json") /\
  iso8601.is_iso8601 (datetime.isoformat (clock Sample.fresh)) = true.
Proof.
  assert (save_token "./tokens" "a@b" Sample.credentials Sample.fresh
          = (inr "./tokens/a_at_b.json",
             snd (save_token "./tokens" "a@b" Sample.credentials Sample.fresh)))
    as Hsave by (vm_compute; reflexivity).
  destruct (save_token_persists_record "./tokens" "a@b" Sample.credentials
              Sample.fresh _ _ eq_refl sample_noon_valid Hsave)
    as (Hpath & _ & _ & Hiso & _).
  split_and!; [reflexivity | exact sample_noon_valid | exact Hsave | exact Hpath | exact Hiso].
Defined.

(** C10: the sanitization is not injective.  ["a@b"] and ["a_at_b"] are
    different identifiers with the same file name and hence the same
    storage path.  A successful save for ["a_at_b"] writes its record
    at the path the lookup for ["a@b"] reads: if nothing was there
    before, that lookup answered [has_token] false before the save, and
    after the save it answers [has_token] true with the timestamp of
    the save. *)
Theorem sanitization_collides (storage_dir : string) (credentials : Credentials)
    (w w1 : world) (path : string) :
  save_token storage_dir "a_at_b" credentials w = (inr path, w1) ->
  "a@b" <> "a_at_b" /\
  PyStr.replace "a@b" "@" "_at_" = PyStr.replace "a_at_b" "@" "_at_" /\
  token_path storage_dir "a@b" = token_path storage_dir "a_at_b" /\
  path = token_path storage_dir "a@b" /\
  files w1 !! token_path storage_dir "a@b"
  = Some (fs.File (json.dumps (token_record credentials (clock w)))) /\
  (files w !! token_path storage_dir "a@b" = None ->
   get_token storage_dir "a@b" w
   = (inr {| has_token := false; created_at := None;
             message := "No token found for user" |}, w)) /\
  get_token storage_dir "a@b" w1
  = (inr {| has_token := true;
            created_at := Some (json.Str (datetime.isoformat (clock w)));
            message := "Token found for user" |}, w1).
Proof.
  intros Hsave. split_and!; [discriminate | reflexivity | reflexivity | | | |].
  - now apply save_token_inr in Hsave as (-> & _ & _).
  - apply save_token_inr in Hsave as (-> & _ & ->).
    cbn [files set_files].
    change (token_path storage_dir "a@b") with (token_path storage_dir "a_at_b").
    apply lookup_insert_eq.
  - intros Hnone. now rewrite get_token_eq, path_exists_none.
  - rewrite get_token_eq.
    change (token_path storage_dir "a@b") with (token_path storage_dir "a_at_b").
    rewrite <- get_token_eq.
    apply (get_token_after_save _ _ _ _ _ _ Hsave).
Qed.

Lemma sanitization_collides_witness :
  save_token "./tokens" "a_at_b" Sample.credentials Sample.fresh
  = (inr "./tokens/a_at_b.json",
     snd (save_token "./tokens" "a_at_b" Sample.credentials Sample.fresh)) /\
  fst (get_token "./tokens" "a@b" Sample.fresh) = inr no_token /\
  fst (get_token "./tokens" "a@b"
         (snd (save_token "./tokens" "a_at_b" Sample.credentials Sample.fresh)))
  = inr (token_found (json.Str "2024-02-29T12:00:00")).
Proof.
  assert (save_token "./tokens" "a_at_b" Sample.credentials Sample.fresh
          = (inr "./tokens/a_at_b.json",
             snd (save_token "./tokens" "a_at_b" Sample.credentials Sample.fresh)))
    as Hsave by (vm_compute; reflexivity).
  split; [exact Hsave|].
  destruct (sanitization_collides "./tokens" Sample.credentials _ _ _ Hsave)
    as (_ & _ & _ & _ & _ & Hbefore & Hafter).
  split.
  - rewrite Hbefore; reflexivity.
  - rewrite Hafter. reflexivity.
Defined.

(* ===================================================================== *)
(** * Properties of the authorization URL *)
(* ===================================================================== *)

Lemma join_app (sep : string) (a b : list string) :
  a <> [] -> b <> [] ->
  PyStr.join sep (a ++ b) = PyStr.join sep a +:+ sep +:+ PyStr.join sep b.
Proof.
  intros Ha Hb. destruct b as [|y b]; [contradiction|]. clear Hb.
  induction a as [|x a IH]; [contradiction|].
  destruct a as [|x' a].
  - reflexivity.
  - change (PyStr.join sep ((x :: x' :: a) ++ y :: b))
      with (x +:+ sep +:+ PyStr.join sep ((x' :: a) ++ y :: b)).
    rewrite IH by discriminate.
    change (PyStr.join sep (x :: x' :: a))
      with (x +:+ sep +:+ PyStr.join sep (x' :: a)).
    now rewrite !str_app_assoc.
Qed.

(** The keyword arguments always end the query string. *)
Lemma urlencode_grant_params (client redirect : string) (scope : list string)
    (state : string) (challenge : option string) :
  exists base : string,
    oauthlib.urlencode
      (oauthlib.grant_params client redirect scope state challenge consent_kwargs)
    = base +:+ consent_query.
Proof.
  unfold oauthlib.urlencode, oauthlib.grant_params.
  rewrite !app_assoc, map_app.
  rewrite join_app.
  - eexists. reflexivity.
  - rewrite <- !app_assoc. discriminate.
  - discriminate.
Qed.

(** [generate_auth_url], with its [try] blocks evaluated. *)
Lemma generate_auth_url_eq (secrets redirect : string) (env : environment)
    (email : string) (w : world) :
  generate_auth_url secrets redirect env email w
  = (match load_client_secrets env secrets with
     | inl e =>
         inl (HTTPException 500
                ("Failed to generate auth URL: " +:+
                 str_exn (HTTPException 500
                            ("Failed to create OAuth flow: " +:+ str_exn e))))
     | inr cfg =>
         match oauthlib.prepare_grant_uri (auth_uri cfg) (client_id cfg) redirect
                 SCOPES (generated_state env) (code_challenge env) consent_kwargs with
         | inl e => inl (HTTPException 500 ("Failed to generate auth URL: " +:+ str_exn e))
         | inr url => inr {| auth_url := url; email := email |}
         end
     end,
     record_call (FlowConstruction secrets) w).
Proof.
  unfold generate_auth_url, get_flow, authorization_url, Flow_from_client_secrets_file,
    try_except, bind, lift, ret, raise.
  destruct (load_client_secrets env secrets) as [e|cfg]; [reflexivity|].
  cbn [flow_config flow_scopes flow_redirect_uri].
  change (oauthlib.setdefault "access_type" "offline" _) with consent_kwargs.
  destruct (oauthlib.prepare_grant_uri _ _ _ _ _ _ _); reflexivity.
Qed.

(** C8: whenever [generate_auth_url] returns a URL, that URL is the
    client configuration's authorization endpoint followed by the
    encoded request parameters; [access_type=offline] and
    [prompt=consent] are among them, and the URL ends with
    [&access_type=offline&include_granted_scopes=true&prompt=consent]:
    the request asks for offline access and forces re-consent.  (What
    the provider issues in return is outside the program.) *)
Theorem auth_url_requests_offline_consent (secrets redirect : string)
    (env : environment) (email : string) (w w' : world) (r : auth_url_response) :
  generate_auth_url secrets redirect env email w = (inr r, w') ->
  exists (cfg : client_config) (params : list (string * string)) (base : string),
    load_client_secrets env secrets = inr cfg /\
    auth_url r = auth_uri cfg +:+ "?" +:+ oauthlib.urlencode params /\
    In ("access_type", "offline") params /\
    In ("prompt", "consent") params /\
    auth_url r = base +:+ consent_query.
Proof.
  rewrite generate_auth_url_eq.
  destruct (load_client_secrets env secrets) as [e|cfg]; [discriminate|].
  unfold oauthlib.prepare_grant_uri.
  destruct (oauthlib.is_secure_transport (auth_uri cfg)); [|discriminate].
  cbn [negb]. intros [= <- _]. cbn [auth_url].
  destruct (urlencode_grant_params (client_id cfg) redirect SCOPES
              (generated_state env) (code_challenge env)) as [base Hbase].
  exists cfg, (oauthlib.grant_params (client_id cfg) redirect SCOPES
                 (generated_state env) (code_challenge env) consent_kwargs),
         (auth_uri cfg +:+ "?" +:+ base).
  split_and!; [reflexivity | reflexivity | | |].
  - unfold oauthlib.grant_params. rewrite !in_app_iff. do 5 right. now left.
  - unfold oauthlib.grant_params. rewrite !in_app_iff. do 5 right. right; right; now left.
  - rewrite Hbase, !str_app_assoc. reflexivity.
Qed.

Lemma auth_url_requests_offline_consent_witness :
  generate_auth_url "secrets.json" "https://taskiq.io/auth/google" Sample.provider
    "a@b" Sample.fresh
  = (inr {| auth_url :=
              "https://accounts.google.com/o/oauth2/auth?response_type=code&client_id=client-1&redirect_uri=https%3A%2F%2Ftaskiq.io%2Fauth%2Fgoogle&scope=openid+https%3A%2F%2Fwww.googleapis.com%2Fauth%2Fuserinfo.email+https%3A%2F%2Fmail.google.com%2F+https%3A%2F%2Fwww.googleapis.com%2Fauth%2Fcalendar&state=st8&access_type=offline&include_granted_scopes=true&prompt=consent";
            email := "a@b" |},
     record_call (FlowConstruction "secrets.json") Sample.fresh)
  /\
  exists base : string,
    "https://accounts.google.com/o/oauth2/auth?response_type=code&client_id=client-1&redirect_uri=https%3A%2F%2Ftaskiq.io%2Fauth%2Fgoogle&scope=openid+https%3A%2F%2Fwww.googleapis.com%2Fauth%2Fuserinfo.email+https%3A%2F%2Fmail.google.com%2F+https%3A%2F%2Fwww.googleapis.com%2Fauth%2Fcalendar&state=st8&access_type=offline&include_granted_scopes=true&prompt=consent"
    = base +:+ consent_query.
Proof.
  assert (generate_auth_url "secrets.json" "https://taskiq.io/auth/google"
            Sample.provider "a@b" Sample.fresh
          = (inr {| auth_url :=
              "https://accounts.google.com/o/oauth2/auth?response_type=code&client_id=client-1&redirect_uri=https%3A%2F%2Ftaskiq.io%2Fauth%2Fgoogle&scope=openid+https%3A%2F%2Fwww.googleapis.com%2Fauth%2Fuserinfo.email+https%3A%2F%2Fmail.google.com%2F+https%3A%2F%2Fwww.googleapis.com%2Fauth%2Fcalendar&state=st8&access_type=offline&include_granted_scopes=true&prompt=consent";
                    email := "a@b" |},
             record_call (FlowConstruction "secrets.json") Sample.fresh)) as Hrun
    by (vm_compute; reflexivity).
  split; [exact Hrun|].
  destruct (auth_url_requests_offline_consent _ _ _ _ _ _ _ Hrun)
    as (_ & _ & base & _ & _ & _ & _ & Hbase).
  exists base. exact Hbase.
Defined.

(** C9: two invocations of [GET /generate-auth-url] in the same world
    that differ only in the [email] parameter leave the same world
    behind and either both fail with the same error or both succeed
    with the same authorization URL, each echoing its own [email]. *)
Theorem auth_url_ignores_email (secrets redirect : string) (env : environment)
    (email1 email2 : string) (w : world) :
  snd (generate_auth_url secrets redirect env email1 w)
  = snd (generate_auth_url secrets redirect env email2 w) /\
  match fst (generate_auth_url secrets redirect env email1 w),
        fst (generate_auth_url secrets redirect env email2 w) with
  | inr r1, inr r2 =>
      auth_url r1 = auth_url r2 /\ email r1 = email1 /\ email r2 = email2
  | inl e1, inl e2 => e1 = e2
  | _, _ => False
  end.
Proof.
  rewrite !generate_auth_url_eq. cbn [fst snd]. split; [reflexivity|].
  destruct (load_client_secrets env secrets) as [e|cfg]; [reflexivity|].
  destruct (oauthlib.prepare_grant_uri _ _ _ _ _ _ _); [reflexivity | now split_and!].
Qed.

(* ===================================================================== *)
(** * Further properties: the exchange path of the callback *)
(* ===================================================================== *)

Lemma get_flow_eq (secrets redirect : string) (env : environment) (w : world) :
  get_flow secrets redirect env w
  = (match load_client_secrets env secrets with
     | inr cfg => inr {| flow_config := cfg; flow_scopes := SCOPES;
                         flow_redirect_uri := redirect |}
     | inl e => inl (HTTPException 500 ("Failed to create OAuth flow: " +:+ str_exn e))
     end,
     record_call (FlowConstruction secrets) w).
Proof.
  unfold get_flow, try_except, bind, Flow_from_client_secrets_file, ret, raise.
  destruct (load_client_secrets env secrets); reflexivity.
Qed.

Lemma get_user_info_eq (env : environment) (credentials : Credentials) (w : world) :
  get_user_info env credentials w
  = (match http_get_json env userinfo_url ("Bearer " +:+ token credentials) with
     | inr info => inr info
     | inl e => inl (HTTPException 500 ("Failed to get user info: " +:+ str_exn e))
     end,
     record_call (UserInfoRequest userinfo_url ("Bearer " +:+ token credentials)) w).
Proof.
  unfold get_user_info, try_except, httpx_get_json, raise, userinfo_url.
  destruct (http_get_json env _ _); reflexivity.
Qed.

Lemma auth_callback_exchange (secrets redirect dir : string) (env : environment)
    (code : string) (state error : option string) (w : world) :
  given error = false -> code <> EmptyString ->
  auth_callback secrets redirect dir env (Some code) state error w
  = let w1 := record_call (FlowConstruction secrets) w in
    match load_client_secrets env secrets with
    | inl e =>
        (inr (page500 (HTTPException 500
                         ("Failed to create OAuth flow: " +:+ str_exn e))), w1)
    | inr cfg =>
        let flow := {| flow_config := cfg; flow_scopes := SCOPES;
                       flow_redirect_uri := redirect |} in
        let w2 := record_call (TokenExchange code) w1 in
        match token_endpoint env flow code with
        | inl e => (inr (page500 e), w2)
        | inr credentials =>
            let bearer := "Bearer " +:+ token credentials in
            let w3 := record_call (UserInfoRequest userinfo_url bearer) w2 in
            match http_get_json env userinfo_url bearer with
            | inl e =>
                (inr (page500 (HTTPException 500
                                 ("Failed to get user info: " +:+ str_exn e))), w3)
            | inr info =>
                match json.get info "email" with
                | inl e => (inr (page500 e), w3)
                | inr user_email =>
                    if json.truthy user_email then
                      match user_email with
                      | json.Str user_id =>
                          match save_token dir user_id credentials w3 with
                          | (inr _, w4) =>
                              (inr {| content := success_html user_id;
                                      status_code := 200 |}, w4)
                          | (inl e, w4) => (inr (page500 e), w4)
                          end
                      | _ =>
                          (inr (page500
                                  (HTTPException 500
                                     ("Failed to save token: " +:+
                                      "object has no attribute 'replace'"))), w3)
                      end
                    else
                      (inr {| content := "Could not retrieve user email";
                              status_code := 400 |}, w3)
                end
            end
        end
    end.
Proof.
  intros Herr Hcode. unfold auth_callback. rewrite Herr.
  assert (given (Some code) = true) as ->.
  { unfold given. now destruct (String.eqb_spec code EmptyString). }
  cbn [negb default id]. unfold try_except at 1. unfold bind at 1.
  rewrite get_flow_eq.
  destruct (load_client_secrets env secrets) as [e|cfg]; [reflexivity|].
  unfold bind at 1. unfold fetch_token at 1. cbn zeta.
  destruct (token_endpoint env _ code) as [e|credentials]; [reflexivity|].
  unfold bind at 1. rewrite get_user_info_eq.
  destruct (http_get_json env _ _) as [e|info]; [reflexivity|].
  unfold bind at 1, lift at 1.
  destruct (json.get info "email") as [e|user_email]; [reflexivity|].
  destruct (json.truthy user_email) eqn:Htruthy; [|reflexivity].
  cbn [negb]. unfold bind, ret.
  destruct user_email; try reflexivity.
  cbn [save_token_dyn format_value].
  destruct (save_token dir s credentials _) as [[e|p] w4]; reflexivity.
Qed.

Ltac callback_cases :=
  repeat (cbn [fst snd];
          match goal with
          | |- context [match ?x with _ => _ end] =>
              lazymatch x with
              | context [match _ with _ => _ end] => fail
              | context [if _ then _ else _] => fail
              | _ => destruct x eqn:?
              end
          | |- context [if ?b then _ else _] =>
              lazymatch b with
              | context [match _ with _ => _ end] => fail
              | _ => destruct b eqn:?
              end
          end);
  cbn [fst snd].

Lemma given_spec (x : option string) :
  given x = true <-> exists s, x = Some s /\ s <> EmptyString.
Proof.
  unfold given. destruct x as [s|].
  - destruct (String.eqb_spec s EmptyString) as [->|Hne]; cbn [negb].
    + split; [discriminate | intros (s & [= <-] & H); contradiction].
    + split; [exists s; now split | reflexivity].
  - split; [discriminate | intros (s & H & _); discriminate].
Qed.

(** The three ways the handler starts. *)
Lemma auth_callback_cases (secrets redirect dir : string) (env : environment)
    (code state error : option string) (w : world) :
  (exists e, error = Some e /\ e <> EmptyString /\
     auth_callback secrets redirect dir env code state error w
     = (inr {| content := error_html e; status_code := 400 |}, w)) \/
  (given error = false /\ given code = false /\
     auth_callback secrets redirect dir env code state error w
     = (inr {| content := "No authorization code received"; status_code := 400 |}, w)) \/
  (given error = false /\ exists c, code = Some c /\ c <> EmptyString).
Proof.
  destruct (given error) eqn:Herr.
  - left. apply given_spec in Herr as (e & -> & Hne). exists e. split_and!; try done.
    unfold auth_callback, given. now destruct (String.eqb_spec e EmptyString).
  - right. destruct (given code) eqn:Hcode.
    + right. split; [reflexivity|]. now apply given_spec.
    + left. split_and!; try done. unfold auth_callback. now rewrite Herr, Hcode.
Qed.

(** X1: [auth_callback] never raises: for every request, environment
    and world it returns a page, and the status of that page is 200,
    400 or 500. *)
Theorem auth_callback_always_answers (secrets redirect dir : string)
    (env : environment) (code state error : option string) (w : world) :
  exists r : HTMLResponse,
    fst (auth_callback secrets redirect dir env code state error w) = inr r /\
    (status_code r = 200 \/ status_code r = 400 \/ status_code r = 500).
Proof.
  destruct (auth_callback_cases secrets redirect dir env code state error w)
    as [(e & _ & _ & ->)|[(_ & _ & ->)|(Herr & c & -> & Hc)]].
  - eexists. split; [reflexivity|]. right; now left.
  - eexists. split; [reflexivity|]. right; now left.
  - rewrite auth_callback_exchange by assumption. cbn zeta.
    callback_cases; eexists; (split; [reflexivity|]); cbn [status_code page500]; tauto.
Qed.

Lemma save_token_frame (dir user_id : string) (credentials : Credentials) (w : world) :
  clock (snd (save_token dir user_id credentials w)) = clock w /\
  calls (snd (save_token dir user_id credentials w)) = calls w.
Proof.
  rewrite save_token_eq. destruct (fs.write_text _ _ _); split; reflexivity.
Qed.

Lemma save_token_inl (dir user_id : string) (credentials : Credentials)
    (w w1 : world) (e : exn) :
  save_token dir user_id credentials w = (inl e, w1) ->
  w1 = w /\
  exists cause : exn,
    fs.write_text (files w) (token_path dir user_id)
      (json.dumps (token_record credentials (clock w))) = inl cause /\
    e = HTTPException 500 ("Failed to save token: " +:+ str_exn cause).
Proof.
  rewrite save_token_eq.
  destruct (fs.write_text _ _ _) as [cause|store'] eqn:Hwrite; [|discriminate].
  intros [= <- <-]. split; [reflexivity|]. now exists cause.
Qed.

(** X2: [auth_callback] never touches the clock.  An answer with status
    400 leaves the store exactly as it was, and with status 200 the
    store is the old one with the token record written at the storage
    path of the email shown on the page. *)
Theorem callback_store_by_status (secrets redirect dir : string)
    (env : environment) (code state error : option string) (w : world) :
  let out := auth_callback secrets redirect dir env code state error w in
  clock (snd out) = clock w /\
  match fst out with
  | inr r =>
      (status_code r = 400 -> files (snd out) = files w) /\
      (status_code r = 200 ->
       exists (user_id : string) (credentials : Credentials),
         content r = success_html user_id /\
         files (snd out)
         = <[token_path dir user_id :=
               fs.File (json.dumps (token_record credentials (clock w)))]> (files w))
  | inl _ => False
  end.
Proof.
  cbn zeta.
  destruct (auth_callback_cases secrets redirect dir env code state error w)
    as [(e & _ & _ & ->)|[(_ & _ & ->)|(Herr & c & -> & Hc)]];
    [cbn [fst snd status_code]; split_and!;
     [reflexivity | now intros | discriminate] ..|].
  rewrite auth_callback_exchange by assumption. cbn zeta.
  callback_cases; cbn [status_code page500];
    repeat match goal with
           | H : save_token _ _ _ _ = (inl _, _) |- _ =>
               apply save_token_inl in H as (-> & _)
           | H : save_token _ _ _ _ = (inr _, _) |- _ =>
               apply save_token_inr in H as (-> & _ & ->)
           end;
    (split_and!;
     [ reflexivity
     | first [discriminate | now intros]
     | first [discriminate | intros _; eexists _, _; split; reflexivity] ]).
Qed.

(** X3: the success path.  With no error, a non-empty code, a readable
    client configuration, a token endpoint that accepts the code, an
    identity answer whose [email] is a non-empty string and a file that
    can be written, the handler answers 200 with the success page for
    that email, has made exactly the three outbound calls in order (the
    identity request carrying [Bearer <access token>]), and the store
    holds the record of the freshly obtained credentials at the email's
    storage path. *)
Theorem auth_callback_success (secrets redirect dir : string) (env : environment)
    (code : string) (state error : option string) (w : world)
    (cfg : client_config) (credentials : Credentials) (info : json.value)
    (user_email : string) (store' : gmap string fs.node) :
  given error = false ->
  code <> EmptyString ->
  load_client_secrets env secrets = inr cfg ->
  token_endpoint env {| flow_config := cfg; flow_scopes := SCOPES;
                        flow_redirect_uri := redirect |} code = inr credentials ->
  http_get_json env userinfo_url ("Bearer " +:+ token credentials) = inr info ->
  json.get info "email" = inr (json.Str user_email) ->
  user_email <> EmptyString ->
  fs.write_text (files w) (token_path dir user_email)
    (json.dumps (token_record credentials (clock w))) = inr store' ->
  auth_callback secrets redirect dir env (Some code) state error w
  = (inr {| content := success_html user_email; status_code := 200 |},
     {| files := <[token_path dir user_email :=
                    fs.File (json.dumps (token_record credentials (clock w)))]> (files w);
        clock := clock w;
        calls := calls w ++ [ FlowConstruction secrets; TokenExchange code;
                              UserInfoRequest userinfo_url
                                ("Bearer " +:+ token credentials) ] |}).
Proof.
  intros Herr Hcode Hcfg Htoken Hinfo Hemail Hne Hwrite.
  rewrite auth_callback_exchange by assumption. cbn zeta.
  rewrite Hcfg, Htoken, Hinfo, Hemail.
  assert (json.truthy (json.Str user_email) = true) as ->.
  { cbn [json.truthy]. now destruct (String.eqb_spec user_email EmptyString). }
  rewrite save_token_eq. cbn [files clock record_call]. rewrite Hwrite.
  apply write_text_inr in Hwrite as [-> _].
  unfold set_files, record_call. cbn [files clock calls].
  rewrite <- !app_assoc. reflexivity.
Qed.

Lemma auth_callback_success_witness :
  auth_callback Deployment.secrets Deployment.redirect "./tokens" Sample.provider (Some "c0de")
    (Some "st8") None Sample.fresh
  = (inr {| content := success_html "a@b"; status_code := 200 |},
     {| files := <["./tokens/a_at_b.json" :=
                    fs.File (json.dumps (token_record Sample.credentials Sample.noon))]>
                   (files Sample.fresh);
        clock := Sample.noon;
        calls := [ FlowConstruction Deployment.secrets; TokenExchange "c0de";
                   UserInfoRequest userinfo_url "Bearer ya29.sample" ] |}).
Proof.
  refine (auth_callback_success Deployment.secrets Deployment.redirect "./tokens" Sample.provider "c0de"
            (Some "st8") None Sample.fresh Sample.config Sample.credentials
            (json.Object [("email", json.Str "a@b")]) "a@b"
            (<["./tokens/a_at_b.json" :=
                 fs.File (json.dumps (token_record Sample.credentials Sample.noon))]>
               (files Sample.fresh))
            eq_refl _ eq_refl eq_refl eq_refl eq_refl _ _).
  - discriminate.
  - discriminate.
  - vm_compute. reflexivity.
Defined.



(** X5: the outbound calls of one callback are a prefix of: flow
    construction, token exchange for the given code, identity request
    with the bearer token.  So no token is exchanged before the client
    configuration was loaded, no identity request is made without an
    exchanged token, and none of the three is made twice. *)
Theorem auth_callback_call_order (secrets redirect dir : string) (env : environment)
    (code state error : option string) (w : world) :
  exists made : list call,
    calls (snd (auth_callback secrets redirect dir env code state error w))
    = calls w ++ made /\
    ( made = [] \/
      made = [FlowConstruction secrets] \/
      made = [FlowConstruction secrets; TokenExchange (default EmptyString code)] \/
      exists credentials : Credentials,
        made = [ FlowConstruction secrets;
                 TokenExchange (default EmptyString code);
                 UserInfoRequest userinfo_url ("Bearer " +:+ token credentials) ] ).
Proof.
  destruct (auth_callback_cases secrets redirect dir env code state error w)
    as [(e & _ & _ & ->)|[(_ & _ & ->)|(Herr & c & -> & Hc)]].
  - exists []. split; [now rewrite app_nil_r | now left].
  - exists []. split; [now rewrite app_nil_r | now left].
  - rewrite auth_callback_exchange by assumption. cbn zeta.
    callback_cases;
      try match goal with
          | H : save_token _ _ _ _ = _ |- _ =>
              apply (f_equal snd) in H; cbn [snd] in H; subst;
              rewrite (proj2 (save_token_frame _ _ _ _))
          end;
      cbn [calls record_call default id]; rewrite <- ?app_assoc; cbn [app];
      eexists; (split; [reflexivity|]); eauto 6.
Qed.

(** X6: when the [error] parameter is absent or empty, a [code] that
    is absent or empty ([code=]) is answered 400 "No authorization code
    received", and the world is returned unchanged. *)
Theorem code_missing_or_empty_rejected (secrets redirect dir : string)
    (env : environment) (code state error : option string) (w : world) :
  given error = false -> given code = false ->
  auth_callback secrets redirect dir env code state error w
  = (inr {| content := "No authorization code received"; status_code := 400 |}, w).
Proof. intros Herr Hcode. unfold auth_callback. now rewrite Herr, Hcode. Qed.

Lemma code_missing_or_empty_rejected_witness :
  given (Some EmptyString) = false /\
  auth_callback Deployment.secrets Deployment.redirect "./tokens" Sample.provider (Some EmptyString)
    (Some "st8") (Some EmptyString) Sample.fresh
  = (inr {| content := "No authorization code received"; status_code := 400 |},
     Sample.fresh).
Proof.
  split; [reflexivity|].
  exact (code_missing_or_empty_rejected Deployment.secrets Deployment.redirect "./tokens" Sample.provider
           (Some EmptyString) (Some "st8") (Some EmptyString) Sample.fresh
           eq_refl eq_refl).
Defined.

(** X7: when the client secrets cannot be loaded, the callback answers
    500 with the error page showing
    [500: Failed to create OAuth flow: <cause>]; the only outbound call
    is the flow construction, so the code is never sent to the
    provider. *)
Theorem flow_failure_is_500 (secrets redirect dir : string) (env : environment)
    (code : string) (state error : option string) (w : world) (cause : exn) :
  given error = false -> code <> EmptyString ->
  load_client_secrets env secrets = inl cause ->
  auth_callback secrets redirect dir env (Some code) state error w
  = (inr {| content :=
              error_html ("500: Failed to create OAuth flow: " +:+ str_exn cause);
            status_code := 500 |},
     record_call (FlowConstruction secrets) w).
Proof.
  intros Herr Hcode Hcfg.
  rewrite auth_callback_exchange by assumption. cbn zeta. now rewrite Hcfg.
Qed.

Lemma flow_failure_is_500_witness :
  auth_callback Deployment.secrets Deployment.redirect "./tokens" Faulty.no_secrets (Some "c0de") None None
    Sample.fresh
  = (inr {| content :=
              error_html "500: Failed to create OAuth flow: No such file or directory";
            status_code := 500 |},
     record_call (FlowConstruction Deployment.secrets) Sample.fresh).
Proof.
  refine (flow_failure_is_500 Deployment.secrets Deployment.redirect "./tokens" Faulty.no_secrets "c0de"
            None None Sample.fresh _ eq_refl _ eq_refl).
  discriminate.
Defined.

(** X8: when the provider rejects the code, the callback answers 500
    with the error page showing the provider's message as it is; the
    store is unchanged and the identity endpoint is not called. *)
Theorem exchange_failure_is_500 (secrets redirect dir : string) (env : environment)
    (code : string) (state error : option string) (w : world)
    (cfg : client_config) (cause : exn) :
  given error = false -> code <> EmptyString ->
  load_client_secrets env secrets = inr cfg ->
  token_endpoint env {| flow_config := cfg; flow_scopes := SCOPES;
                        flow_redirect_uri := redirect |} code = inl cause ->
  auth_callback secrets redirect dir env (Some code) state error w
  = (inr {| content := error_html (str_exn cause); status_code := 500 |},
     {| files := files w; clock := clock w;
        calls := calls w ++ [FlowConstruction secrets; TokenExchange code] |}).
Proof.
  intros Herr Hcode Hcfg Htoken.
  rewrite auth_callback_exchange by assumption. cbn zeta. rewrite Hcfg, Htoken.
  unfold record_call. cbn [files clock calls]. now rewrite <- app_assoc.
Qed.

Lemma exchange_failure_is_500_witness :
  auth_callback Deployment.secrets Deployment.redirect "./tokens" Faulty.bad_code (Some "used") None None
    Sample.fresh
  = (inr {| content := error_html "(invalid_grant) Bad Request"; status_code := 500 |},
     {| files := files Sample.fresh; clock := clock Sample.fresh;
        calls := [FlowConstruction Deployment.secrets; TokenExchange "used"] |}).
Proof.
  refine (exchange_failure_is_500 Deployment.secrets Deployment.redirect "./tokens" Faulty.bad_code "used"
            None None Sample.fresh Sample.config _ eq_refl _ eq_refl eq_refl).
  discriminate.
Defined.

(** X9: when the identity request fails, the callback answers 500 with
    the error page showing [500: Failed to get user info: <cause>], and
    the store is unchanged. *)
Theorem identity_failure_is_500 (secrets redirect dir : string) (env : environment)
    (code : string) (state error : option string) (w : world)
    (cfg : client_config) (credentials : Credentials) (cause : exn) :
  given error = false -> code <> EmptyString ->
  load_client_secrets env secrets = inr cfg ->
  token_endpoint env {| flow_config := cfg; flow_scopes := SCOPES;
                        flow_redirect_uri := redirect |} code = inr credentials ->
  http_get_json env userinfo_url ("Bearer " +:+ token credentials) = inl cause ->
  exists w' : world,
    auth_callback secrets redirect dir env (Some code) state error w
    = (inr {| content :=
                error_html ("500: Failed to get user info: " +:+ str_exn cause);
              status_code := 500 |}, w') /\
    files w' = files w.
Proof.
  intros Herr Hcode Hcfg Htoken Hinfo.
  rewrite auth_callback_exchange by assumption. cbn zeta.
  rewrite Hcfg, Htoken, Hinfo. eexists. split; reflexivity.
Qed.

Lemma identity_failure_is_500_witness :
  exists w' : world,
    auth_callback Deployment.secrets Deployment.redirect "./tokens" Faulty.no_identity (Some "c0de") None None
      Sample.fresh
    = (inr {| content := error_html "500: Failed to get user info: 401 Unauthorized";
              status_code := 500 |}, w') /\
    files w' = files Sample.fresh.
Proof.
  refine (identity_failure_is_500 Deployment.secrets Deployment.redirect "./tokens" Faulty.no_identity "c0de"
            None None Sample.fresh Sample.config Sample.credentials _
            eq_refl _ eq_refl eq_refl eq_refl).
  discriminate.
Defined.

(** X10: when the identity answer has no [email], or a falsy one
    ([None], empty string, zero, empty list or object), the callback
    answers 400 "Could not retrieve user email": the code has been
    exchanged and the identity requested, but nothing is stored. *)
Theorem missing_email_is_400 (secrets redirect dir : string) (env : environment)
    (code : string) (state error : option string) (w : world)
    (cfg : client_config) (credentials : Credentials) (info user_email : json.value) :
  given error = false -> code <> EmptyString ->
  load_client_secrets env secrets = inr cfg ->
  token_endpoint env {| flow_config := cfg; flow_scopes := SCOPES;
                        flow_redirect_uri := redirect |} code = inr credentials ->
  http_get_json env userinfo_url ("Bearer " +:+ token credentials) = inr info ->
  json.get info "email" = inr user_email ->
  json.truthy user_email = false ->
  auth_callback secrets redirect dir env (Some code) state error w
  = (inr {| content := "Could not retrieve user email"; status_code := 400 |},
     {| files := files w; clock := clock w;
        calls := calls w ++ [ FlowConstruction secrets; TokenExchange code;
                              UserInfoRequest userinfo_url
                                ("Bearer " +:+ token credentials) ] |}).
Proof.
  intros Herr Hcode Hcfg Htoken Hinfo Hemail Hfalsy.
  rewrite auth_callback_exchange by assumption. cbn zeta.
  rewrite Hcfg, Htoken, Hinfo, Hemail, Hfalsy.
  unfold record_call. cbn [files clock calls]. now rewrite <- !app_assoc.
Qed.

Lemma missing_email_is_400_witness :
  auth_callback Deployment.secrets Deployment.redirect "./tokens" Faulty.no_email (Some "c0de") None None
    Sample.fresh
  = (inr {| content := "Could not retrieve user email"; status_code := 400 |},
     {| files := files Sample.fresh; clock := clock Sample.fresh;
        calls := [ FlowConstruction Deployment.secrets; TokenExchange "c0de";
                   UserInfoRequest userinfo_url "Bearer ya29.sample" ] |}).
Proof.
  refine (missing_email_is_400 Deployment.secrets Deployment.redirect "./tokens" Faulty.no_email "c0de"
            None None Sample.fresh Sample.config Sample.credentials
            (json.Object [("id", json.Str "42")]) json.Null
            eq_refl _ eq_refl eq_refl eq_refl eq_refl eq_refl).
  discriminate.
Defined.

(* ===================================================================== *)
(** * Further properties: the URL generator and the helper functions *)
(* ===================================================================== *)

(** X13: [generate_auth_url] never touches the store or the clock and
    makes exactly one outbound call, the flow construction; on success
    the response echoes the [email] argument, and the only thing it
    raises is [HTTPException] 500 with a detail that starts with
    [Failed to generate auth URL: ]. *)
Theorem generate_auth_url_effects (secrets redirect : string) (env : environment)
    (hint : string) (w : world) :
  snd (generate_auth_url secrets redirect env hint w)
  = {| files := files w; clock := clock w;
       calls := calls w ++ [FlowConstruction secrets] |} /\
  match fst (generate_auth_url secrets redirect env hint w) with
  | inr r => email r = hint
  | inl e =>
      exists detail : string,
        e = HTTPException 500 ("Failed to generate auth URL: " +:+ detail)
  end.
Proof.
  rewrite generate_auth_url_eq. cbn [fst snd]. split; [reflexivity|].
  destruct (load_client_secrets env secrets) as [e|cfg]; [eexists; reflexivity|].
  destruct (oauthlib.prepare_grant_uri _ _ _ _ _ _ _); [eexists|]; reflexivity.
Qed.

(** X14: every URL [generate_auth_url] returns is the configured
    authorization endpoint followed by the encoded request parameters,
    among them [response_type=code], the client id of the loaded
    configuration, the four fixed scopes joined by spaces and, when it
    is not empty, the configured redirect URI. *)
Theorem auth_url_requests_fixed_scopes (secrets redirect : string)
    (env : environment) (email : string) (w w' : world) (r : auth_url_response) :
  generate_auth_url secrets redirect env email w = (inr r, w') ->
  exists (cfg : client_config) (params : list (string * string)),
    load_client_secrets env secrets = inr cfg /\
    auth_url r = auth_uri cfg +:+ "?" +:+ oauthlib.urlencode params /\
    In ("response_type", "code") params /\
    In ("client_id", client_id cfg) params /\
    In ("scope",
        "openid https://www.googleapis.com/auth/userinfo.email https://mail.google.com/ https://www.googleapis.com/auth/calendar")
       params /\
    (redirect <> EmptyString -> In ("redirect_uri", redirect) params).
Proof.
  rewrite generate_auth_url_eq.
  destruct (load_client_secrets env secrets) as [e|cfg]; [discriminate|].
  unfold oauthlib.prepare_grant_uri.
  destruct (oauthlib.is_secure_transport (auth_uri cfg)); [|discriminate].
  cbn [negb]. intros [= <- _]. cbn [auth_url].
  exists cfg. eexists. split_and!; [reflexivity | reflexivity | | | |].
  - unfold oauthlib.grant_params. cbn [app In]. now left.
  - unfold oauthlib.grant_params. cbn [app In]. right; now left.
  - unfold oauthlib.grant_params. rewrite !in_app_iff. right. right. left. now left.
  - intros Hne. unfold oauthlib.grant_params, oauthlib.nonempty.
    destruct (String.eqb_spec redirect EmptyString); [contradiction|].
    rewrite !in_app_iff. right. left. now left.
Qed.

Lemma auth_url_requests_fixed_scopes_witness :
  exists (cfg : client_config) (params : list (string * string)),
    load_client_secrets Sample.provider "secrets.json" = inr cfg /\
    In ("scope",
        "openid https://www.googleapis.com/auth/userinfo.email https://mail.google.com/ https://www.googleapis.com/auth/calendar")
       params.
Proof.
  destruct (auth_url_requests_fixed_scopes "secrets.json" "https://taskiq.io/auth/google"
              Sample.provider "a@b" Sample.fresh
              (snd (generate_auth_url "secrets.json" "https://taskiq.io/auth/google"
                      Sample.provider "a@b" Sample.fresh))
              {| auth_url :=
                   "https://accounts.google.com/o/oauth2/auth?response_type=code&client_id=client-1&redirect_uri=https%3A%2F%2Ftaskiq.io%2Fauth%2Fgoogle&scope=openid+https%3A%2F%2Fwww.googleapis.com%2Fauth%2Fuserinfo.email+https%3A%2F%2Fmail.google.com%2F+https%3A%2F%2Fwww.googleapis.com%2Fauth%2Fcalendar&state=st8&access_type=offline&include_granted_scopes=true&prompt=consent";
                 email := "a@b" |})
    as (cfg & params & Hcfg & _ & _ & _ & Hscope & _).
  - vm_compute. reflexivity.
  - exists cfg, params. now split.
Defined.

(** X15: [get_flow] records exactly one flow construction for the
    configured secrets file and changes nothing else; it either returns
    a flow over the loaded configuration with the four fixed scopes and
    the configured redirect URI, or raises [HTTPException] 500 with
    detail [Failed to create OAuth flow: <cause>], and nothing else. *)
Theorem get_flow_wraps_failures (secrets redirect : string) (env : environment)
    (w : world) :
  snd (get_flow secrets redirect env w) = record_call (FlowConstruction secrets) w /\
  match fst (get_flow secrets redirect env w) with
  | inr flow =>
      load_client_secrets env secrets = inr (flow_config flow) /\
      flow_scopes flow = SCOPES /\ flow_redirect_uri flow = redirect
  | inl e =>
      exists cause : exn,
        load_client_secrets env secrets = inl cause /\
        e = HTTPException 500 ("Failed to create OAuth flow: " +:+ str_exn cause)
  end.
Proof.
  rewrite get_flow_eq. cbn [fst snd]. split; [reflexivity|].
  destruct (load_client_secrets env secrets) as [cause|cfg].
  - now exists cause.
  - now split_and!.
Qed.

(** X16: [get_user_info] makes exactly one request, to
    [https://www.googleapis.com/oauth2/v2/userinfo] with the header
    value [Bearer <access token>], and changes nothing else; it returns
    the decoded answer as it is, or raises [HTTPException] 500 with
    detail [Failed to get user info: <cause>], and nothing else. *)
Theorem get_user_info_wraps_failures (env : environment) (credentials : Credentials)
    (w : world) :
  snd (get_user_info env credentials w)
  = record_call (UserInfoRequest "https://www.googleapis.com/oauth2/v2/userinfo"
                   ("Bearer " +:+ token credentials)) w /\
  match fst (get_user_info env credentials w) with
  | inr info =>
      http_get_json env "https://www.googleapis.com/oauth2/v2/userinfo"
        ("Bearer " +:+ token credentials) = inr info
  | inl e =>
      exists cause : exn,
        http_get_json env "https://www.googleapis.com/oauth2/v2/userinfo"
          ("Bearer " +:+ token credentials) = inl cause /\
        e = HTTPException 500 ("Failed to get user info: " +:+ str_exn cause)
  end.
Proof.
  rewrite get_user_info_eq. cbn [fst snd]. split; [reflexivity|].
  fold userinfo_url.
  destruct (http_get_json env _ _) as [cause|info]; [now exists cause | reflexivity].
Qed.

(* ===================================================================== *)
(** * Further properties: the store under several identifiers *)
(* ===================================================================== *)

(** X19: two different identifiers that contain no underscore and do
    not begin with ['/'] never share a storage path. *)
Theorem distinct_identifiers_distinct_paths (dir u v : string) :
  PyStr.contains_char "_" u = false -> PyStr.contains_char "_" v = false ->
  PyStr.startswith u "/" = false -> PyStr.startswith v "/" = false ->
  u <> v ->
  token_path dir u <> token_path dir v.
Proof.
  intros Hu Hv Hru Hrv Hne Hpath. apply Hne.
  unfold token_path in Hpath. rewrite !replace_at_substitute in Hpath.
  rewrite !join_relative in Hpath by now apply substitute_at_first.
  do 2 apply str_app_inv_head in Hpath. apply str_app_inv_tail in Hpath.
  now apply substitute_at_injective.
Qed.

Lemma distinct_identifiers_distinct_paths_witness :
  "a@b" <> "a@c" /\ token_path "./tokens" "a@b" <> token_path "./tokens" "a@c".
Proof.
  assert ("a@b" <> "a@c") as Hne by discriminate.
  split; [exact Hne|].
  exact (distinct_identifiers_distinct_paths "./tokens" "a@b" "a@c"
           eq_refl eq_refl eq_refl eq_refl Hne).
Defined.



(** X21: sanitizing twice is sanitizing once; the sanitized name
    equals the identifier exactly when the identifier has no ['@']; and
    [get_token] answers the same for an identifier and for its
    sanitized form. *)
Theorem sanitization_idempotent (dir user_id : string) (w : world) :
  PyStr.replace (PyStr.replace user_id "@" "_at_") "@" "_at_"
  = PyStr.replace user_id "@" "_at_" /\
  (PyStr.replace user_id "@" "_at_" = user_id <->
   PyStr.contains_char "@" user_id = false) /\
  get_token dir (PyStr.replace user_id "@" "_at_") w = get_token dir user_id w.
Proof.
  rewrite !replace_at_substitute. split_and!.
  - apply substitute_at_idempotent.
  - split; [apply substitute_at_fixed_only_without_at | apply substitute_at_without_at].
  - rewrite !get_token_eq. unfold token_path.
    now rewrite !replace_at_substitute, substitute_at_idempotent.
Qed.
